(** * aiocache decorators: a shallow embedding of [aiocache/decorators.py]

    The three decorators of the module ([cached], [cached_stampede] and
    [multi_cached]) are embedded as computations in a small monad that
    threads the backend state and the state of the wrapped function, may
    raise a Python exception, and logs every observable action (backend
    calls, calls of the wrapped function, context-manager entry and exit) in
    a trace. Coroutines are run to completion one after the other: [await]
    is sequencing. *)

From Stdlib Require Import ZArith String Ascii List Lia DecimalString.
From Stdlib Require OrderedTypeEx.
From stdpp Require Import base list sorting strings.

Open Scope string_scope.
Open Scope list_scope.

(** ** Python values *)

(** The objects that flow through the decorators: arguments, cache keys and
    cached results. Floats, sets and user-defined classes are left out. *)
#[warnings="-register-all"]
Inductive value : Type :=
| VNone
| VInt (z : Z)
| VStr (s : string)
| VTuple (items : list value)
| VList (items : list value)
| VDict (entries : list (value * value)).

(** Structural equality, used for [==] on hashable keys. *)
Fixpoint value_eqb (a b : value) {struct a} : bool :=
  let fix items_eqb (l1 l2 : list value) {struct l1} : bool :=
    match l1, l2 with
    | [], [] => true
    | x :: l1', y :: l2' => value_eqb x y && items_eqb l1' l2'
    | _, _ => false
    end in
  let fix entries_eqb (l1 l2 : list (value * value)) {struct l1} : bool :=
    match l1, l2 with
    | [], [] => true
    | (k1, v1) :: l1', (k2, v2) :: l2' =>
        value_eqb k1 k2 && value_eqb v1 v2 && entries_eqb l1' l2'
    | _, _ => false
    end in
  match a, b with
  | VNone, VNone => true
  | VInt x, VInt y => Z.eqb x y
  | VStr x, VStr y => String.eqb x y
  | VTuple x, VTuple y => items_eqb x y
  | VList x, VList y => items_eqb x y
  | VDict x, VDict y => entries_eqb x y
  | _, _ => false
  end.

(** [x is None] and [x is not None]. *)
Definition is_None (v : value) : bool :=
  match v with VNone => true | _ => false end.

Definition is_not_None (v : value) : bool := negb (is_None v).

(** Truth value of an object, as tested by [if x:] and [x or y]. *)
Definition truthy (v : value) : bool :=
  match v with
  | VNone => false
  | VInt z => negb (Z.eqb z 0)
  | VStr s => negb (String.eqb s "")
  | VTuple items | VList items => match items with [] => false | _ => true end
  | VDict entries => match entries with [] => false | _ => true end
  end.

(** *** [repr] and [str] *)

Definition dquote : ascii := ascii_of_nat 34.
Definition squote : ascii := "'"%char.
Definition backslash : ascii := "\"%char.

Definition hex_digit (n : N) : ascii :=
  nth (N.to_nat n) (list_ascii_of_string "0123456789abcdef") "0"%char.

Definition hex_escape (n : N) : string :=
  String backslash (String "x"%char
    (String (hex_digit (N.div n 16)) (String (hex_digit (N.modulo n 16)) ""))).

(** Code points below 256 that [repr] does not print as they are. *)
Definition unprintable (n : N) : bool :=
  (n <? 32)%N || ((127 <=? n)%N && (n <=? 160)%N) || (n =? 173)%N.

Definition escape_char (quote c : ascii) : string :=
  let n := N_of_ascii c in
  if Ascii.eqb c backslash then String backslash (String backslash "")
  else if Ascii.eqb c quote then String backslash (String quote "")
  else if (n =? 9)%N then String backslash "t"
  else if (n =? 10)%N then String backslash "n"
  else if (n =? 13)%N then String backslash "r"
  else if unprintable n then hex_escape n
  else String c "".

Fixpoint contains_char (c : ascii) (s : string) : bool :=
  match s with
  | EmptyString => false
  | String c' s' => Ascii.eqb c c' || contains_char c s'
  end.

Fixpoint escape_string (quote : ascii) (s : string) : string :=
  match s with
  | EmptyString => EmptyString
  | String c s' => String.append (escape_char quote c) (escape_string quote s')
  end.

(** [repr] of a [str]: single quotes unless the text holds a single quote and
    no double quote. *)
Definition repr_str (s : string) : string :=
  let quote :=
    if contains_char squote s && negb (contains_char dquote s)
    then dquote else squote in
  String quote (String.append (escape_string quote s) (String quote "")).

Definition repr_int (z : Z) : string := NilZero.string_of_int (Z.to_int z).

Fixpoint repr (v : value) : string :=
  match v with
  | VNone => "None"
  | VInt z => repr_int z
  | VStr s => repr_str s
  | VTuple items =>
      match items with
      | [x] => String.append "(" (String.append (repr x) ",)")
      | _ => String.append "(" (String.append (String.concat ", " (map repr items)) ")")
      end
  | VList items =>
      String.append "[" (String.append (String.concat ", " (map repr items)) "]")
  | VDict entries =>
      String.append "{"
        (String.append
           (String.concat ", "
              (map (fun kv => let '(k, x) := kv in
                              String.append (repr k) (String.append ": " (repr x)))
                   entries))
           "}")
  end.

(** [str(x)]: the text itself for a [str], [repr] for the other values. *)
Definition str (v : value) : string :=
  match v with
  | VStr s => s
  | _ => repr v
  end.

(** ** Dictionaries

    A Python [dict] keeps its keys in insertion order, and the order shows
    in what the decorators hand to the backend ([result.items()]), so a
    dictionary is an association list: assigning to a key that is present
    replaces its value in place, assigning to a new key appends it. *)

Class PyEq (K : Type) := py_eqb : K -> K -> bool.
#[export] Instance string_PyEq : PyEq string := String.eqb.
#[export] Instance value_PyEq : PyEq value := value_eqb.

Abbreviation dict K V := (list (K * V)).

Section Dict.
Context {K V : Type} `{PyEq K}.

(** [d.get(k)] as an option; [d[k]] raises KeyError on [None]. *)
Fixpoint dict_get (d : dict K V) (k : K) : option V :=
    match d with
    | [] => None
    | (k', v) :: d' => if py_eqb k' k then Some v else dict_get d' k
    end.

(** [d[k] = v] *)
Fixpoint dict_set (d : dict K V) (k : K) (v : V) : dict K V :=
    match d with
    | [] => [(k, v)]
    | (k', v') :: d' =>
        if py_eqb k' k then (k', v) :: d' else (k', v') :: dict_set d' k v
    end.

(** [d.update(other)], also [{**d, **other}] *)
Definition dict_update (d other : dict K V) : dict K V :=
    fold_left (fun acc kv => dict_set acc (fst kv) (snd kv)) other d.

(** [dict(pairs)] *)
Definition dict_of_pairs (pairs : list (K * V)) : dict K V :=
    dict_update [] pairs.

Definition dict_keys (d : dict K V) : list K := map fst d.

Definition dict_mem (d : dict K V) (k : K) : bool :=
    match dict_get d k with Some _ => true | None => false end.
End Dict.

(** ** Exceptions and outcomes *)

Inductive exn : Type :=
| KeyError (key : value)
| TypeError (msg : string)
| AttributeError (msg : string)
| BackendError (err : string)        (* a failure of the cache backend *)
| UnboundLocalError (name : string)  (* a local variable read before assignment *)
| UserException (name : string)      (* an Exception raised by wrapped code *)
| UserBaseException (name : string). (* BaseException only: KeyboardInterrupt, ... *)

(** Whether [except Exception] catches it. *)
Definition is_Exception (e : exn) : bool :=
  match e with
  | UserBaseException _ => false
  | _ => true
  end.

Inductive outcome (A : Type) : Type :=
| Ret (a : A)
| Raise (e : exn).
Arguments Ret {A} a.
Arguments Raise {A} e.

(** ** Observable actions *)

Inductive event : Type :=
| EvConnEnter                       (* async with self._conn: __aenter__ *)
| EvConnExit                        (* ... and __aexit__ *)
| EvLockEnter (key lease : value)   (* async with _redlock(key, lease) *)
| EvLockExit (key : value)
| EvGet (key : value)
| EvSet (key v ttl : value)
| EvMultiGet (keys : list value)
| EvMultiSet (pairs : list (value * value)) (ttl : value)
| EvClose                           (* asyncio.ensure_future(self.cache.close()) *)
| EvLog (template : string) (args : list value)
| EvCall (args : list value) (kwargs : dict string value).

Definition is_write (ev : event) : bool :=
  match ev with EvSet _ _ _ | EvMultiSet _ _ => true | _ => false end.


(** The calls of the wrapped function recorded in a trace, in order. *)
Fixpoint calls_of (tr : list event) : list (list value * dict string value) :=
  match tr with
  | [] => []
  | EvCall args kwargs :: tr' => (args, kwargs) :: calls_of tr'
  | _ :: tr' => calls_of tr'
  end.

(** The batch writes recorded in a trace, in order. *)
Fixpoint multi_sets_of (tr : list event) : list (list (value * value) * value) :=
  match tr with
  | [] => []
  | EvMultiSet pairs ttl :: tr' => (pairs, ttl) :: multi_sets_of tr'
  | _ :: tr' => multi_sets_of tr'
  end.

(** The single writes recorded in a trace, in order. *)
Fixpoint sets_of (tr : list event) : list (value * value * value) :=
  match tr with
  | [] => []
  | EvSet key v ttl :: tr' => (key, v, ttl) :: sets_of tr'
  | _ :: tr' => sets_of tr'
  end.

(** ** The cache backend

    The storage backends are not part of the module: the decorators reach
    them through [get], [set], [multi_get] and [multi_set] only. A backend is
    a state machine over its own state [S]; an operation answers or fails.
    A failure is an ordinary exception (a network or serialization error, a
    subclass of [Exception]). *)

Inductive bres (A : Type) : Type :=
| BVal (a : A)
| BFail (err : string).
Arguments BVal {A} a.
Arguments BFail {A} err.

Class Backend (S : Type) : Type := {
  b_get : value -> S -> bres value * S;
  b_set : value -> value -> value -> S -> bres unit * S;
  b_multi_get : list value -> S -> bres (list value) * S;
  b_multi_set : list (value * value) -> value -> S -> bres unit * S
}.

Definition of_bres {A : Type} (r : bres A) : outcome A :=
  match r with
  | BVal a => Ret a
  | BFail err => Raise (BackendError err)
  end.

(** ** The lock

    The lock that [cached_stampede] takes, [self.conn._redlock(key, lease)],
    is an object of aiocache.base, not of this module: it is a parameter.
    Entering it and leaving it work on the backend, so both take the state of
    the backend and may fail. Leaving it receives the exception of the block,
    if there is one, and answers the truth value of what [__aexit__]
    returns: Python swallows the exception of the block when that value is
    true. *)
Class Lock (S : Type) : Type := {
  l_enter : value -> value -> S -> bres unit * S;
  l_exit : value -> value -> option exn -> S -> bres bool * S
}.

(** ** The monad of decorated calls

    A computation starts from the backend state and the state of the
    wrapped function's environment, and gives an outcome, the two states
    afterwards and the actions it performed, oldest first. *)

Definition M (S E A : Type) : Type :=
  S * E -> outcome A * (S * E) * list event.

Section Monad.
Context {S E : Type}.

Definition ret {A : Type} (a : A) : M S E A :=
    fun w => (Ret a, w, []).

Definition raise {A : Type} (e : exn) : M S E A :=
    fun w => (Raise e, w, []).

Definition bind {A B : Type} (m : M S E A) (k : A -> M S E B) : M S E B :=
    fun w =>
      match m w with
      | (Ret a, w1, t1) => let '(o, w2, t2) := k a w1 in (o, w2, t1 ++ t2)
      | (Raise e, w1, t1) => (Raise e, w1, t1)
      end.

Definition emit (ev : event) : M S E unit :=
    fun w => (Ret tt, w, [ev]).

Definition lift_outcome {A : Type} (o : outcome A) : M S E A :=
    fun w => (o, w, []).

(** [try: body except Exception: handler] *)
Definition try_except_Exception {A : Type}
      (body : M S E A) (handler : exn -> M S E A) : M S E A :=
    fun w =>
      match body w with
      | (Ret a, w1, t1) => (Ret a, w1, t1)
      | (Raise e, w1, t1) =>
          if is_Exception e
          then let '(o, w2, t2) := handler e w1 in (o, w2, t1 ++ t2)
          else (Raise e, w1, t1)
      end.

(** Modelled from the spec: the context manager of the scoped connection
      ([_Conn] of aiocache.base, not in this module). Section 4.2: the
      connection is released on every exit path, and a failure of the body
      still reaches the caller. Taking a connection does not fail. *)
Definition async_with {A : Type} (enter exit : event) (body : M S E A)
      : M S E A :=
    fun w => let '(o, w1, t1) := body w in (o, w1, [enter] ++ t1 ++ [exit]).

(** A backend operation, with the action that records it. *)
Definition backend_op {A : Type} (ev : event) (op : S -> bres A * S)
      : M S E A :=
    fun w => let '(r, s1) := op (fst w) in (of_bres r, (s1, snd w), [ev]).
End Monad.

Declare Scope py_scope.
Delimit Scope py_scope with py.
Notation "x <- m ;; k" := (bind m (fun x => k))
  (at level 100, m at next level, right associativity) : py_scope.
Notation "m ;;; k" := (bind m (fun _ => k))
  (at level 100, right associativity) : py_scope.
Open Scope py_scope.

(** How the block of an [async with] ends when it does not raise: on a
    [return] statement, or at its last statement with the local variable
    [result] bound. *)
Inductive block_end : Type :=
| Returns (v : value)
| Falls (result : value).

(** [async with lock: block], as Python runs it. A failure of [__aenter__]
    reaches the caller and the block is not run. After the block,
    [__aexit__] is called on every path; a failure of [__aexit__] reaches
    the caller; an exception of the block is swallowed when [__aexit__]
    answers a true value, and execution goes on after the statement
    ([None] here), otherwise it reaches the caller. *)
Definition async_with_lock {S E : Type} {L : Lock S} (key lease : value)
    (block : M S E block_end) : M S E (option block_end) :=
  fun w =>
    match l_enter key lease (fst w) with
    | (BFail err, s1) =>
        (Raise (BackendError err), (s1, snd w), [EvLockEnter key lease])
    | (BVal _, s1) =>
        let '(o, w1, t1) := block (s1, snd w) in
        let raised := match o with Raise x => Some x | Ret _ => None end in
        let tr := [EvLockEnter key lease] ++ t1 ++ [EvLockExit key] in
        match l_exit key lease raised (fst w1) with
        | (BFail err, s2) => (Raise (BackendError err), (s2, snd w1), tr)
        | (BVal swallow, s2) =>
            match o with
            | Ret ended => (Ret (Some ended), (s2, snd w1), tr)
            | Raise x =>
                if swallow then (Ret None, (s2, snd w1), tr)
                else (Raise x, (s2, snd w1), tr)
            end
        end
    end.

(** ** Functions under decoration *)

(** What the decorators read of a function object, and how it answers a
    call [f( *args, **kwargs)] from the state [E] of its environment. Binding
    the arguments to the parameters is part of the call: a call that Python
    rejects answers with the [TypeError]. *)
Record pyfunc (E : Type) : Type := {
  f_module : option string;                  (* func.__module__ *)
  f_name : string;                           (* func.__name__ *)
  f_parameters : list (string * option value);
    (* inspect.signature(func).parameters: name and default, [None] for
       inspect._empty *)
  f_co_varnames : list string;               (* func.__code__.co_varnames *)
  f_co_argcount : nat;                       (* func.__code__.co_argcount *)
  f_call : list value -> dict string value -> E -> outcome value * E
}.
Arguments f_module {E} _.
Arguments f_name {E} _.
Arguments f_parameters {E} _.
Arguments f_co_varnames {E} _.
Arguments f_co_argcount {E} _.
Arguments f_call {E} _ _ _ _.

(** [await f( *args, **kwargs)] *)
Definition call {S E : Type} (f : pyfunc E) (args : list value)
    (kwargs : dict string value) : M S E value :=
  fun w =>
    let '(o, e1) := f_call f args kwargs (snd w) in
    (o, (fst w, e1), [EvCall args kwargs]).

(** [_get_args_dict(func, args, kwargs)] *)
Definition _get_args_dict {E : Type} (func : pyfunc E) (args : list value)
    (kwargs : dict string value) : dict string value :=
  let defaults :=
    dict_of_pairs
      (flat_map (fun p => match snd p with
                          | Some d => [(fst p, d)]
                          | None => []
                          end)
                (f_parameters func)) in
  let args_names := firstn (f_co_argcount func) (f_co_varnames func) in
  dict_update (dict_update defaults (dict_of_pairs (combine args_names args)))
              kwargs.

(** [sorted(kwargs.items())]: the items are [(name, value)] tuples and the
    names of a dictionary are distinct, so the order of two items is the
    order of their names, code point by code point. *)
Definition item_le (a b : string * value) : Prop :=
  String.leb (fst a) (fst b) = true.

#[export] Instance item_le_dec (a b : string * value) : Decision (item_le a b).
Proof. unfold item_le. solve_decision. Defined.

Definition sorted_items (kwargs : dict string value) : list (string * value) :=
  merge_sort item_le kwargs.

Definition items_value (items : list (string * value)) : value :=
  VList (map (fun kv => VTuple [VStr (fst kv); snd kv]) items).

(** [for key in keys]: the elements an object yields when iterated. *)
Definition iterate (v : value) : outcome (list value) :=
  match v with
  | VList items | VTuple items => Ret items
  | VDict entries => Ret (map fst entries)
  | VStr s => Ret (map (fun c => VStr (String c "")) (list_ascii_of_string s))
  | VNone | VInt _ => Raise (TypeError "object is not iterable")
  end.

(** A list comprehension whose element expression may raise. *)
Fixpoint map_outcome {A B : Type} (g : A -> outcome B) (l : list A)
    : outcome (list B) :=
  match l with
  | [] => Ret []
  | x :: l' =>
      match g x with
      | Raise e => Raise e
      | Ret y =>
          match map_outcome g l' with
          | Raise e => Raise e
          | Ret ys => Ret (y :: ys)
          end
      end
  end.

(** ** class cached *)

Module cached.

Record t : Type := {
    ttl : value;
    key : value;
    key_from_attr : option string;
    noself : bool
  }.

(** [cached()] *)
Definition default : t :=
    {| ttl := VNone; key := VNone; key_from_attr := None; noself := false |}.

Section Methods.
Context {S E : Type} `{Backend S}.

Definition _key_from_args (self : t) (func : pyfunc E) (args : list value)
        (kwargs : dict string value) : string :=
      let ordered_kwargs := sorted_items kwargs in
      String.append
        (String.append
           (String.append
              (match f_module func with
               | Some m => if truthy (VStr m) then m else ""
               | None => ""
               end)
              (f_name func))
           (str (VTuple (if noself self then tl args else args))))
        (str (items_value ordered_kwargs)).

Definition get_cache_key (self : t) (f : pyfunc E) (args : list value)
        (kwargs : dict string value) : value :=
      if truthy (key self) then key self
      else
        let args_dict := _get_args_dict f args kwargs in
        let derived := VStr (_key_from_args self f args kwargs) in
        match key_from_attr self with
        | Some attr =>
            match dict_get args_dict attr with
            | Some v => v
            | None => derived
            end
        | None => derived
        end.

Definition get_from_cache (key : value) : M S E value :=
      try_except_Exception
        (value <- backend_op (EvGet key) (b_get key) ;;
         (if is_not_None value then emit EvClose else ret tt) ;;;
         ret value)
        (fun _ =>
           emit (EvLog "Couldn't retrieve %s, unexpected error" [key]) ;;;
           ret VNone).

Definition set_in_cache (self : t) (key v : value) : M S E unit :=
      try_except_Exception
        (backend_op (EvSet key v (ttl self)) (b_set key v (ttl self)))
        (fun _ =>
           emit (EvLog "Couldn't set %s in key %s, unexpected error" [v; key]) ;;;
           ret tt).

Definition decorator (self : t) (f : pyfunc E) (args : list value)
        (kwargs : dict string value) : M S E value :=
      async_with EvConnEnter EvConnExit
        (let key := get_cache_key self f args kwargs in
         value <- get_from_cache key ;;
         if is_not_None value then ret value
         else
           result <- call f args kwargs ;;
           set_in_cache self key result ;;;
           ret result).
End Methods.

End cached.

(** ** class cached_stampede(cached) *)

Module cached_stampede.

Record t : Type := {
    base : cached.t;
    lease : value
  }.

Section Methods.
Context {S E : Type} {B : Backend S} {L : Lock S}.

(** The block under the lock (lines 169 to 175): the second lookup, and on
    a miss the call of the function and the write. *)
Definition critical_section (self : t) (f : pyfunc E) (args : list value)
    (kwargs : dict string value) (key : value) : M S E block_end :=
  value <- cached.get_from_cache key ;;
  if is_not_None value then ret (Returns value)
  else
    result <- call f args kwargs ;;
    cached.set_in_cache (base self) key result ;;;
    ret (Falls result).

(** [return result] comes after the [async with] statement (line 177):
    when the lock swallowed an exception of the block, [result] was never
    assigned. *)
Definition decorator (self : t) (f : pyfunc E) (args : list value)
    (kwargs : dict string value) : M S E value :=
  let key := cached.get_cache_key (base self) f args kwargs in
  value <- cached.get_from_cache key ;;
  if is_not_None value then ret value
  else
    ended <- async_with_lock key (lease self)
               (critical_section self f args kwargs key) ;;
    match ended with
    | Some (Returns v) => ret v
    | Some (Falls result) => ret result
    | None => raise (UnboundLocalError "result")
    end.
End Methods.

End cached_stampede.

(** ** class multi_cached *)

Module multi_cached.

Record t : Type := {
    keys_from_attr : string;
    key_builder : option (value -> dict string value -> outcome value);
    ttl : value
  }.

(** [self._key_builder = key_builder or (lambda x, args_dict: x)] *)
Definition _key_builder (self : t) : value -> dict string value -> outcome value :=
    match key_builder self with
    | Some kb => kb
    | None => fun x _ => Ret x
    end.

(** One turn of the loop over [zip(keys, values)]. *)
Definition partition_step (acc : list value * dict value value)
      (kv : value * value) : list value * dict value value :=
    let '(missing_keys, partial) := acc in
    if is_None (snd kv) then (missing_keys ++ [fst kv], partial)
    else (missing_keys, dict_set partial (fst kv) (snd kv)).

(** [result.update(partial)] on whatever the wrapped function returned. *)
Definition update (result : value) (partial : dict value value)
      : outcome (dict value value) :=
    match result with
    | VDict entries => Ret (dict_update entries partial)
    | _ => Raise (AttributeError "object has no attribute 'update'")
    end.

Section Methods.
Context {S E : Type} `{Backend S}.

Definition get_cache_keys (self : t) (f : pyfunc E) (args : list value)
        (kwargs : dict string value) : outcome (list value) :=
      let args_dict := _get_args_dict f args kwargs in
      match dict_get args_dict (keys_from_attr self) with
      | None => Raise (KeyError (VStr (keys_from_attr self)))
      | Some keys =>
          match iterate keys with
          | Raise e => Raise e
          | Ret ks => map_outcome (fun key => _key_builder self key args_dict) ks
          end
      end.

Definition get_from_cache (keys : list value) : M S E (list value) :=
      match keys with
      | [] => ret []
      | _ =>
          try_except_Exception
            (values <- backend_op (EvMultiGet keys) (b_multi_get keys) ;;
             (if negb (existsb is_None values) then emit EvClose else ret tt) ;;;
             ret values)
            (fun _ =>
               emit (EvLog "Couldn't retrieve %s, unexpected error" [VTuple keys]) ;;;
               ret (repeat VNone (length keys)))
      end.

Definition set_in_cache (self : t) (result : dict value value) : M S E unit :=
      try_except_Exception
        (backend_op (EvMultiSet result (ttl self)) (b_multi_set result (ttl self)))
        (fun _ =>
           emit (EvLog "Couldn't set %s, unexpected error" [VDict result]) ;;;
           ret tt).

Definition decorator (self : t) (f : pyfunc E) (args : list value)
        (kwargs : dict string value) : M S E value :=
      async_with EvConnEnter EvConnExit
        (keys <- lift_outcome (get_cache_keys self f args kwargs) ;;
         values <- get_from_cache keys ;;
         let '(missing_keys, partial) :=
           fold_left partition_step (combine keys values) ([], []) in
         let kwargs := dict_set kwargs (keys_from_attr self) (VList missing_keys) in
         if match values with [] => false | _ => true end
            && negb (existsb is_None values)
         then ret (VDict partial)
         else
           result <- call f args kwargs ;;
           result <- lift_outcome (update result partial) ;;
           set_in_cache self result ;;;
           ret (VDict result)).
End Methods.

End multi_cached.

(** ** Backends and functions to run the decorators on *)

(** Modelled from the spec: the in-memory backend (SimpleMemoryCache of
    aiocache, not in this module), after the capability contract of section
    6: [get] answers the stored value or the absent marker [None], [set] and
    [multi_set] upsert, [multi_get] answers a list aligned with the keys.
    Expiry is left out: no time passes between the calls of a run. *)
Module memory.
Definition get (key : value) (s : dict value value) : bres value * dict value value :=
    (BVal (match dict_get s key with Some v => v | None => VNone end), s).

Definition set (key v ttl : value) (s : dict value value) : bres unit * dict value value :=
    (BVal tt, dict_set s key v).

Definition multi_get (keys : list value) (s : dict value value)
      : bres (list value) * dict value value :=
    (BVal (map (fun key => match dict_get s key with Some v => v | None => VNone end) keys), s).

Definition multi_set (pairs : list (value * value)) (ttl : value)
      (s : dict value value) : bres unit * dict value value :=
    (BVal tt, dict_update s pairs).

#[export] Instance backend : Backend (dict value value) :=
    {| b_get := get; b_set := set; b_multi_get := multi_get; b_multi_set := multi_set |}.
End memory.

(** A backend that is down: every read and every write raises. *)
Module broken.
Definition backend : Backend unit :=
    {| b_get := fun _ s => (BFail "ConnectionError", s);
       b_set := fun _ _ _ s => (BFail "ConnectionError", s);
       b_multi_get := fun _ s => (BFail "ConnectionError", s);
       b_multi_set := fun _ _ s => (BFail "ConnectionError", s) |}.
End broken.

(** A backend whose first answer to [get] is a miss and whose later answers
    are the value [VStr "value"]: another caller filled the cache meanwhile.
    Its state counts the reads. *)
Definition filled_meanwhile : Backend nat :=
  {| b_get := fun _ n =>
       (BVal (match n with O => VNone | _ => VStr "value" end), Datatypes.S n);
     b_set := fun _ _ _ n => (BVal tt, n);
     b_multi_get := fun keys n => (BVal (map (fun _ => VNone) keys), n);
     b_multi_set := fun _ _ n => (BVal tt, n) |}.

(** Two locks to run the stampede decorator alone. Neither fails nor touches
    the backend. The first answers a false value on leaving; the second
    answers the count of the lock records it released, one: a true value. *)
Module locks.
Definition passing {S : Type} : Lock S :=
  {| l_enter := fun _ _ s => (BVal tt, s);
     l_exit := fun _ _ _ s => (BVal false, s) |}.

Definition counting {S : Type} : Lock S :=
  {| l_enter := fun _ _ s => (BVal tt, s);
     l_exit := fun _ _ _ s => (BVal true, s) |}.
End locks.

(** Binding the arguments of a call to the parameters of a function
    [def f(p1, ..., pn)] without defaults: too many positional arguments, a
    keyword that is no parameter, a keyword for a parameter already given by
    position and a parameter left without a value are each a [TypeError]. *)
Definition bind_plain (params : list string) (args : list value)
    (kwargs : dict string value) : outcome (dict string value) :=
  if Nat.ltb (length params) (length args)
  then Raise (TypeError "too many positional arguments")
  else
    let positional := combine params args in
    match find (fun kv => negb (existsb (String.eqb (fst kv)) params)
                          || dict_mem positional (fst kv)) kwargs with
    | Some kv =>
        if dict_mem positional (fst kv)
        then Raise (TypeError "got multiple values for argument")
        else Raise (TypeError "got an unexpected keyword argument")
    | None =>
        let bound := positional ++ kwargs in
        if forallb (dict_mem bound) params then Ret bound
        else Raise (TypeError "missing required argument")
    end.

(** The functions of the unit tests. Their environment is a counter that
    stands for the random number generator. *)
Module samples.

(** [async def stub( *args, value=None, seconds=0, **kwargs)] *)
Definition stub : pyfunc nat :=
    {| f_module := None;
       f_name := "stub";
       f_parameters := [("args", None); ("value", Some VNone);
                        ("seconds", Some (VInt 0)); ("kwargs", None)];
       f_co_varnames := ["value"; "seconds"; "args"; "kwargs"];
       f_co_argcount := 0;
       f_call := fun args kwargs n =>
         match dict_get kwargs "value" with
         | Some v => if truthy v then (Ret (VStr (str v)), n)
                     else (Ret (VStr (repr_int (Z.of_nat n))), Datatypes.S n)
         | None => (Ret (VStr (repr_int (Z.of_nat n))), Datatypes.S n)
         end |}.

(** [async def stub_dict( *args, keys=None, **kwargs)]: a fresh number for
      each key asked for. *)
Definition stub_dict : pyfunc nat :=
    {| f_module := None;
       f_name := "stub_dict";
       f_parameters := [("args", None); ("keys", Some VNone); ("kwargs", None)];
       f_co_varnames := ["keys"; "args"; "kwargs"];
       f_co_argcount := 0;
       f_call := fun args kwargs n =>
         match iterate (match dict_get kwargs "keys" with
                        | Some v => v
                        | None => VNone
                        end) with
         | Raise e => (Raise e, n)
         | Ret ks =>
             (Ret (VDict (dict_of_pairs (map (fun k => (k, VInt (Z.of_nat n))) ks))),
              Datatypes.S n)
         end |}.

(** [async def fn(n): return n], called with one positional argument. *)
Definition fn : pyfunc nat :=
    {| f_module := Some "tests.ut.test_decorators";
       f_name := "fn";
       f_parameters := [("n", None)];
       f_co_varnames := ["n"];
       f_co_argcount := 1;
       f_call := fun args kwargs n =>
         match args, kwargs with
         | [x], [] => (Ret x, n)
         | _, _ => (Raise (TypeError "fn() takes 1 positional argument"), n)
         end |}.


(** [async def boom(): raise ValueError] *)
Definition boom : pyfunc nat :=
    {| f_module := Some "app";
       f_name := "boom";
       f_parameters := [];
       f_co_varnames := [];
       f_co_argcount := 0;
       f_call := fun args kwargs n =>
         match bind_plain [] args kwargs with
         | Raise e => (Raise e, n)
         | Ret _ => (Raise (UserException "ValueError"), n)
         end |}.

(** [async def forgetful(keys): pass]: it returns [None]. *)
Definition forgetful : pyfunc nat :=
    {| f_module := Some "app";
       f_name := "forgetful";
       f_parameters := [("keys", None)];
       f_co_varnames := ["keys"];
       f_co_argcount := 1;
       f_call := fun args kwargs n =>
         match bind_plain ["keys"] args kwargs with
         | Raise e => (Raise e, n)
         | Ret _ => (Ret VNone, Datatypes.S n)
         end |}.

(** [async def prices(keys, market): return {k: market for k in keys}] *)
Definition prices : pyfunc nat :=
    {| f_module := Some "app";
       f_name := "prices";
       f_parameters := [("keys", None); ("market", None)];
       f_co_varnames := ["keys"; "market"];
       f_co_argcount := 2;
       f_call := fun args kwargs n =>
         match bind_plain ["keys"; "market"] args kwargs with
         | Raise e => (Raise e, n)
         | Ret bound =>
             match dict_get bound "keys", dict_get bound "market" with
             | Some keys, Some market =>
                 match iterate keys with
                 | Raise e => (Raise e, n)
                 | Ret ks =>
                     (Ret (VDict (dict_of_pairs (map (fun k => (k, market)) ks))), n)
                 end
             | _, _ => (Raise (TypeError "missing required argument"), n)
             end
         end |}.

(** [key_builder=lambda x, args_dict: args_dict['market'] + '_' + x] *)
Definition market_key (x : value) (args_dict : dict string value) : outcome value :=
    match dict_get args_dict "market" with
    | None => Raise (KeyError (VStr "market"))
    | Some (VStr m) =>
        match x with
        | VStr k => Ret (VStr (String.append m (String.append "_" k)))
        | _ => Raise (TypeError "can only concatenate str")
        end
    | Some _ => Raise (TypeError "unsupported operand type(s) for +")
    end.

(** [async def lookup(keys)]: a fresh number for each key, the keys being
    a positional-or-keyword parameter. Python refuses a call that gives
    [keys] both by position and by keyword. *)
Definition lookup : pyfunc nat :=
  {| f_module := Some "app";
     f_name := "lookup";
     f_parameters := [("keys", None)];
     f_co_varnames := ["keys"];
     f_co_argcount := 1;
     f_call := fun args kwargs n =>
       let answer ks :=
         match iterate ks with
         | Raise e => (Raise e, n)
         | Ret l =>
             (Ret (VDict (dict_of_pairs (map (fun k => (k, VInt (Z.of_nat n))) l))),
              Datatypes.S n)
         end in
       match args, kwargs with
       | [ks], [] => answer ks
       | [], [(name, ks)] =>
           if String.eqb name "keys" then answer ks
           else (Raise (TypeError "lookup() got an unexpected keyword argument"), n)
       | [_], _ :: _ =>
           (Raise (TypeError "lookup() got multiple values for argument 'keys'"), n)
       | _, _ => (Raise (TypeError "lookup() missing or extra arguments"), n)
       end |}.

(** [multi_cached(keys_from_attr="keys")] *)
Definition by_keys : multi_cached.t :=
  {| multi_cached.keys_from_attr := "keys";
     multi_cached.key_builder := None;
     multi_cached.ttl := VInt 0 |}.

(** [multi_cached(keys_from_attr="keys", key_builder=market_key)] *)
Definition by_market : multi_cached.t :=
  {| multi_cached.keys_from_attr := "keys";
     multi_cached.key_builder := Some market_key;
     multi_cached.ttl := VInt 0 |}.

(** [cached_stampede()] *)
Definition stampede : cached_stampede.t :=
  {| cached_stampede.base := cached.default; cached_stampede.lease := VInt 2 |}.
End samples.

(** ** What the specification calls the missing keys and the hits

    The two halves of a batch read, written as the specification words them
    (section 4.6, step 3): the keys whose value is absent, and the pairs whose
    value is present. The loop of [multi_cached.decorator] is compared with
    them below. *)

Definition missing_of (keys values : list value) : list value :=
  map fst (List.filter (fun kv => is_None (snd kv)) (combine keys values)).

Definition hits_of (keys values : list value) : list (value * value) :=
  List.filter (fun kv => is_not_None (snd kv)) (combine keys values).

(** [n] decorated calls in a row: the outcome and the trace of each, and the
    state after the last. *)
Fixpoint run_calls {S E A : Type} (m : M S E A) (n : nat) (w : S * E)
    : list (outcome A * list event) * (S * E) :=
  match n with
  | O => ([], w)
  | Datatypes.S n' =>
      let '(o, w1, tr) := m w in
      let '(rest, w2) := run_calls m n' w1 in
      ((o, tr) :: rest, w2)
  end.

(** A backend on which every read and every write raises. *)
Definition always_fails {S : Type} (B : Backend S) : Prop :=
  (forall key s, exists err s', b_get key s = (BFail err, s')) /\
  (forall key v ttl s, exists err s', b_set key v ttl s = (BFail err, s')) /\
  (forall keys s, exists err s', b_multi_get keys s = (BFail err, s')) /\
  (forall pairs ttl s, exists err s', b_multi_set pairs ttl s = (BFail err, s')).

(** What a lookup leaves in the trace, and when it counts as a miss: the
    backend answered [None], or it failed. *)
Definition read_trace (key : value) (r : bres value) : list event :=
  match r with
  | BVal _ => [EvGet key]
  | BFail _ => [EvGet key; EvLog "Couldn't retrieve %s, unexpected error" [key]]
  end.

Definition misses (r : bres value) : Prop :=
  match r with BVal v => is_None v = true | BFail _ => True end.

(** Kinds of actions, to count them in a trace. *)
Definition is_lock_enter (ev : event) : bool :=
  match ev with EvLockEnter _ _ => true | _ => false end.

Definition is_lock_exit (ev : event) : bool :=
  match ev with EvLockExit _ => true | _ => false end.

Definition is_conn (ev : event) : bool :=
  match ev with EvConnEnter | EvConnExit => true | _ => false end.

Definition is_backend_op (ev : event) : bool :=
  match ev with
  | EvGet _ | EvSet _ _ _ | EvMultiGet _ | EvMultiSet _ _ => true
  | _ => false
  end.

(** [func.__code__.co_varnames[:func.__code__.co_argcount]]: the names that
    positional arguments are bound to. *)
Definition args_names {E : Type} (func : pyfunc E) : list string :=
  firstn (f_co_argcount func) (f_co_varnames func).

(** The parameters of the signature that have a default, with it. *)
Definition defaults_of {E : Type} (func : pyfunc E) : list (string * value) :=
  flat_map (fun p => match snd p with
                     | Some d => [(fst p, d)]
                     | None => []
                     end)
           (f_parameters func).

(** * Properties *)

(** ** Equality of values *)

Section value_induction.
Variable P : value -> Prop.
Hypothesis HNone : P VNone.
Hypothesis HInt : forall z, P (VInt z).
Hypothesis HStr : forall s, P (VStr s).
Hypothesis HTuple : forall items, Forall P items -> P (VTuple items).
Hypothesis HList : forall items, Forall P items -> P (VList items).
Hypothesis HDict :
    forall entries, Forall (fun kv => P (fst kv) /\ P (snd kv)) entries ->
                    P (VDict entries).

Fixpoint value_nested_ind (v : value) : P v :=
    match v with
    | VNone => HNone
    | VInt z => HInt z
    | VStr s => HStr s
    | VTuple items =>
        HTuple items
          ((fix go (l : list value) : Forall P l :=
              match l with
              | [] => @List.Forall_nil _ P
              | x :: l' => @List.Forall_cons _ P x l' (value_nested_ind x) (go l')
              end) items)
    | VList items =>
        HList items
          ((fix go (l : list value) : Forall P l :=
              match l with
              | [] => @List.Forall_nil _ P
              | x :: l' => @List.Forall_cons _ P x l' (value_nested_ind x) (go l')
              end) items)
    | VDict entries =>
        HDict entries
          ((fix go (l : list (value * value))
              : Forall (fun kv => P (fst kv) /\ P (snd kv)) l :=
              match l with
              | [] => @List.Forall_nil _ _
              | (k, x) :: l' =>
                  @List.Forall_cons _ _ (k, x) l'
                    (conj (value_nested_ind k) (value_nested_ind x)) (go l')
              end) entries)
    end.
End value_induction.

Lemma value_eqb_eq (a b : value) : value_eqb a b = true <-> a = b.
Proof.
  revert b. induction a as [ | z | s | items IH | items IH | entries IH ]
    using value_nested_ind; intros b; destruct b as [ | z' | s' | l | l | l ];
    simpl; try (split; [discriminate | intros; discriminate]); try tauto.
  - rewrite Z.eqb_eq. split; [intros -> | intros [= ->]]; reflexivity.
  - rewrite String.eqb_eq. split; [intros -> | intros [= ->]]; reflexivity.
  - revert l. induction IH as [ | x items Hx _ IHl ]; intros [ | y l ];
      try (split; [discriminate || reflexivity | intros [= ]; try reflexivity]).
    rewrite andb_true_iff, Hx. specialize (IHl l).
    split.
    + intros [-> Hl]. apply IHl in Hl. congruence.
    + intros [= -> ->]. split; [reflexivity | apply IHl; reflexivity].
  - revert l. induction IH as [ | x items Hx _ IHl ]; intros [ | y l ];
      try (split; [discriminate || reflexivity | intros [= ]; try reflexivity]).
    rewrite andb_true_iff, Hx. specialize (IHl l).
    split.
    + intros [-> Hl]. apply IHl in Hl. congruence.
    + intros [= -> ->]. split; [reflexivity | apply IHl; reflexivity].
  - revert l. induction IH as [ | [k x] entries [Hk Hx] _ IHl ]; intros [ | [k' x'] l ];
      try (split; [discriminate || reflexivity | intros [= ]; try reflexivity]).
    simpl in Hk, Hx. rewrite !andb_true_iff, Hk, Hx. specialize (IHl l).
    split.
    + intros [[-> ->] Hl]. apply IHl in Hl. congruence.
    + intros [= -> -> ->]. repeat split; apply IHl; reflexivity.
Qed.

(** Keys whose [==] is equality. *)
Class PyEqLaw (K : Type) `{PyEq K} : Prop :=
  py_eqb_eq : forall a b : K, py_eqb a b = true <-> a = b.

#[export] Instance string_PyEqLaw : PyEqLaw string.
Proof. intros a b. apply String.eqb_eq. Qed.

#[export] Instance value_PyEqLaw : PyEqLaw value.
Proof. intros a b. apply value_eqb_eq. Qed.

(** ** Dictionaries *)

Section DictFacts.
Context {K V : Type} `{PyEqLaw K}.

Lemma py_eqb_refl (k : K) : py_eqb k k = true.
Proof. apply py_eqb_eq. reflexivity. Qed.

Lemma py_eqb_neq (a b : K) : a <> b -> py_eqb a b = false.
Proof.
    intros Hne. destruct (py_eqb a b) eqn:Heq; [ | reflexivity ].
    apply py_eqb_eq in Heq. contradiction.
Qed.

Lemma dict_get_None_keys (d : dict K V) (k : K) :
    dict_get d k = None <-> ~ In k (dict_keys d).
Proof.
    induction d as [ | [k' v] d IH ]; simpl.
    - tauto.
    - destruct (py_eqb k' k) eqn:Heq.
      + apply py_eqb_eq in Heq. split; [discriminate | intros Hn; exfalso; auto].
      + rewrite IH. split.
        * intros Hn [-> | Hin]; [ rewrite py_eqb_refl in Heq; discriminate | auto ].
        * intros Hn Hin. apply Hn. right. exact Hin.
Qed.

Lemma dict_get_Some_In (d : dict K V) (k : K) (v : V) :
    dict_get d k = Some v -> In (k, v) d.
Proof.
    induction d as [ | [k' v'] d IH ]; simpl; [ discriminate | ].
    destruct (py_eqb k' k) eqn:Heq.
    - apply py_eqb_eq in Heq. intros [= ->]. left. congruence.
    - intros Hget. right. apply IH, Hget.
Qed.

Lemma dict_In_get (d : dict K V) (k : K) (v : V) :
    List.NoDup (dict_keys d) -> In (k, v) d -> dict_get d k = Some v.
Proof.
    induction d as [ | [k' v'] d IH ]; simpl; [ tauto | ].
    intros Hnd Hin. inversion Hnd as [ | ? ? Hnotin Hnd' ]; subst.
    destruct Hin as [ [= -> ->] | Hin ].
    - rewrite py_eqb_refl. reflexivity.
    - destruct (py_eqb k' k) eqn:Heq.
      + apply py_eqb_eq in Heq. subst k'. exfalso. apply Hnotin.
        apply (in_map fst) in Hin. exact Hin.
      + apply IH; assumption.
Qed.

Lemma dict_get_set_eq (d : dict K V) (k : K) (v : V) :
    dict_get (dict_set d k v) k = Some v.
Proof.
    induction d as [ | [k' v'] d IH ]; simpl.
    - rewrite py_eqb_refl. reflexivity.
    - destruct (py_eqb k' k) eqn:Heq; simpl; rewrite Heq; [ reflexivity | exact IH ].
Qed.

Lemma dict_get_set_ne (d : dict K V) (k k0 : K) (v : V) :
    k <> k0 -> dict_get (dict_set d k v) k0 = dict_get d k0.
Proof.
    intros Hne. induction d as [ | [k' v'] d IH ]; simpl.
    - rewrite (py_eqb_neq k k0 Hne). reflexivity.
    - destruct (py_eqb k' k) eqn:Heq; simpl.
      + apply py_eqb_eq in Heq. subst k'. rewrite (py_eqb_neq k k0 Hne). reflexivity.
      + destruct (py_eqb k' k0); [ reflexivity | exact IH ].
Qed.

Lemma dict_keys_set (d : dict K V) (k : K) (v : V) :
    dict_keys (dict_set d k v) =
    if dict_mem d k then dict_keys d else dict_keys d ++ [k].
Proof.
    unfold dict_mem. induction d as [ | [k' v'] d IH ]; simpl; [ reflexivity | ].
    destruct (py_eqb k' k) eqn:Heq; simpl; [ reflexivity | ].
    rewrite IH. destruct (dict_get d k); reflexivity.
Qed.

Lemma dict_set_NoDup (d : dict K V) (k : K) (v : V) :
    List.NoDup (dict_keys d) -> List.NoDup (dict_keys (dict_set d k v)).
Proof.
    intros Hnd. rewrite dict_keys_set. unfold dict_mem.
    destruct (dict_get d k) eqn:Hget; [ exact Hnd | ].
    apply dict_get_None_keys in Hget.
    apply NoDup_ListNoDup, NoDup_app. repeat split.
    - apply NoDup_ListNoDup, Hnd.
    - intros x Hx Hx'. apply list_elem_of_In in Hx.
      apply list_elem_of_singleton in Hx'. subst x. contradiction.
    - apply NoDup_singleton.
Qed.

Lemma dict_update_NoDup (d other : dict K V) :
    List.NoDup (dict_keys d) -> List.NoDup (dict_keys (dict_update d other)).
Proof.
    unfold dict_update. revert d.
    induction other as [ | [k v] other IH ]; intros d Hnd; simpl; [ exact Hnd | ].
    apply IH, dict_set_NoDup, Hnd.
Qed.

(** After [d.update(other)] a key reads what [other] holds for it, and what
      [d] held where [other] has nothing. *)
Lemma dict_get_update (d other : dict K V) (k : K) :
    List.NoDup (dict_keys other) ->
    dict_get (dict_update d other) k =
    match dict_get other k with
    | Some v => Some v
    | None => dict_get d k
    end.
Proof.
    unfold dict_update. revert d.
    induction other as [ | [k' v'] other IH ]; intros d Hnd; simpl; [ reflexivity | ].
    inversion Hnd as [ | ? ? Hnotin Hnd' ]; subst.
    rewrite IH by exact Hnd'.
    destruct (py_eqb k' k) eqn:Heq.
    - apply py_eqb_eq in Heq. subst k'.
      apply dict_get_None_keys in Hnotin. rewrite Hnotin.
      apply dict_get_set_eq.
    - destruct (dict_get other k); [ reflexivity | ].
      apply dict_get_set_ne. intros ->. rewrite py_eqb_refl in Heq. discriminate.
Qed.

Lemma dict_keys_update (d other : dict K V) (k : K) :
    In k (dict_keys (dict_update d other)) <->
    In k (dict_keys d) \/ In k (dict_keys other).
Proof.
    unfold dict_update. revert d.
    induction other as [ | [k' v'] other IH ]; intros d; simpl; [ tauto | ].
    rewrite IH, dict_keys_set. unfold dict_mem.
    destruct (dict_get d k') eqn:Hget.
    - apply dict_get_Some_In in Hget. apply (in_map fst) in Hget. simpl in Hget.
      split; [ tauto | ]. intros [ Hin | [ <- | Hin ] ]; auto.
    - rewrite in_app_iff. simpl. tauto.
Qed.

(** Two dictionaries that read the same at every key hold the same items,
      whatever the order they were filled in. *)
Lemma dict_ext_Permutation (d1 d2 : dict K V) :
    List.NoDup (dict_keys d1) -> List.NoDup (dict_keys d2) ->
    (forall k, dict_get d1 k = dict_get d2 k) ->
    Permutation d1 d2.
Proof.
    intros Hnd1 Hnd2 Hext.
    apply NoDup_Permutation.
    - apply (NoDup_fmap_1 fst), NoDup_ListNoDup, Hnd1.
    - apply (NoDup_fmap_1 fst), NoDup_ListNoDup, Hnd2.
    - intros [k v]. rewrite !list_elem_of_In. split; intros Hin.
      + apply dict_get_Some_In. rewrite <- Hext. apply dict_In_get; assumption.
      + apply dict_get_Some_In. rewrite Hext. apply dict_In_get; assumption.
Qed.
End DictFacts.

(** ** Key derivation *)

Lemma string_leb_iff (a b : string) :
  String.leb a b = true <-> OrderedTypeEx.String_as_OT.lt a b \/ a = b.
Proof.
  unfold String.leb.
  destruct (String.compare a b) eqn:Hcmp.
  - apply OrderedTypeEx.String_as_OT.cmp_eq in Hcmp. tauto.
  - apply OrderedTypeEx.String_as_OT.cmp_lt in Hcmp. tauto.
  - split; [ discriminate | ]. intros [Hlt | Heq].
    + apply OrderedTypeEx.String_as_OT.cmp_lt in Hlt.
      unfold OrderedTypeEx.String_as_OT.cmp in Hlt. congruence.
    + apply OrderedTypeEx.String_as_OT.cmp_eq in Heq.
      unfold OrderedTypeEx.String_as_OT.cmp in Heq. congruence.
Qed.

Lemma string_leb_trans (a b c : string) :
  String.leb a b = true -> String.leb b c = true -> String.leb a c = true.
Proof.
  rewrite !string_leb_iff. intros [Hab | ->] [Hbc | ->]; auto.
  left. eapply OrderedTypeEx.String_as_OT.lt_trans; eassumption.
Qed.

#[export] Instance item_le_trans : Transitive item_le.
Proof. intros a b c. apply string_leb_trans. Qed.

#[export] Instance item_le_total : Total item_le.
Proof. intros a b. apply String.leb_total. Qed.

Lemma sorted_items_Permutation (kwargs : dict string value) :
  Permutation (sorted_items kwargs) kwargs.
Proof. apply merge_sort_Permutation. Qed.

Lemma sorted_items_sorted (kwargs : dict string value) :
  StronglySorted item_le (sorted_items kwargs).
Proof. apply StronglySorted_merge_sort; apply _. Qed.

(** Sorting forgets the insertion order of a dictionary. *)
Lemma sorted_items_order_independent (kw1 kw2 : dict string value) :
  List.NoDup (dict_keys kw1) -> Permutation kw1 kw2 ->
  sorted_items kw1 = sorted_items kw2.
Proof.
  intros Hnd Hperm.
  apply (StronglySorted_unique_strong item_le).
  - intros [k1 v1] [k2 v2] Hin1 Hin2 Hle1 Hle2.
    unfold item_le in Hle1, Hle2. simpl in Hle1, Hle2.
    assert (k1 = k2) by (apply String.leb_antisym; assumption). subst k2.
    rewrite sorted_items_Permutation in Hin1.
    rewrite sorted_items_Permutation, <- Hperm in Hin2.
    apply list_elem_of_In in Hin1, Hin2.
    apply (dict_In_get _ _ _ Hnd) in Hin1, Hin2. congruence.
  - apply sorted_items_sorted.
  - apply sorted_items_sorted.
  - rewrite !sorted_items_Permutation. exact Hperm.
Qed.

(** C8: the derived key is a function of the module, the name, the
    positional arguments and the keyword mapping: two derivations from equal
    inputs give the same string, also when the two keyword mappings, equal as
    mappings, were filled in different orders. *)
Theorem key_from_args_deterministic {E : Type} (self : cached.t)
    (f1 f2 : pyfunc E) (args : list value) (kw1 kw2 : dict string value) :
  f_module f1 = f_module f2 ->
  f_name f1 = f_name f2 ->
  List.NoDup (dict_keys kw1) ->
  List.NoDup (dict_keys kw2) ->
  (forall name, dict_get kw1 name = dict_get kw2 name) ->
  cached._key_from_args self f1 args kw1 = cached._key_from_args self f2 args kw2.
Proof.
  intros Hmod Hname Hnd1 Hnd2 Hext.
  unfold cached._key_from_args. rewrite Hmod, Hname.
  rewrite (sorted_items_order_independent kw1 kw2 Hnd1).
  - reflexivity.
  - apply dict_ext_Permutation; assumption.
Qed.

Lemma key_from_args_deterministic_witness :
  cached._key_from_args cached.default samples.stub [VInt 1; VInt 2]
    [("b", VInt 2); ("a", VInt 1)] =
  cached._key_from_args cached.default samples.stub [VInt 1; VInt 2]
    [("a", VInt 1); ("b", VInt 2)].
Proof.
  apply key_from_args_deterministic.
  - reflexivity.
  - reflexivity.
  - repeat constructor; simpl; intuition congruence.
  - repeat constructor; simpl; intuition congruence.
  - intros name. simpl. unfold py_eqb, string_PyEq.
    destruct (String.eqb "b" name) eqn:Hb, (String.eqb "a" name) eqn:Ha;
      try reflexivity.
    apply String.eqb_eq in Hb, Ha. congruence.
Defined.

(** ** Runs of the single-value decorators *)

Ltac unfold_run :=
  unfold cached.decorator, cached_stampede.decorator, multi_cached.decorator,
    cached.get_from_cache, cached.set_in_cache,
    multi_cached.get_from_cache, multi_cached.set_in_cache,
    async_with, try_except_Exception, backend_op, call, bind, emit, ret,
    raise, lift_outcome in *.

Section SingleValueRuns.
Context {S E : Type} `{Backend S}.

(** A lookup: the value read, [None] when the read failed. *)
Lemma get_from_cache_run (key : value) (s : S) (e : E) :
  cached.get_from_cache key (s, e) =
  match b_get key s with
  | (BVal v, s1) =>
      (Ret v, (s1, e), EvGet key :: (if is_not_None v then [EvClose] else []))
  | (BFail err, s1) =>
      (Ret VNone, (s1, e),
       [EvGet key; EvLog "Couldn't retrieve %s, unexpected error" [key]])
  end.
Proof.
  unfold_run. simpl. destruct (b_get key s) as [[v | err] s1]; simpl.
  - destruct (is_not_None v); reflexivity.
  - reflexivity.
Qed.

(** A write: it never raises. *)
Lemma set_in_cache_run (self : cached.t) (key v : value) (s : S) (e : E) :
  cached.set_in_cache self key v (s, e) =
  match b_set key v (cached.ttl self) s with
  | (BVal _, s1) => (Ret tt, (s1, e), [EvSet key v (cached.ttl self)])
  | (BFail err, s1) =>
      (Ret tt, (s1, e),
       [EvSet key v (cached.ttl self);
        EvLog "Couldn't set %s in key %s, unexpected error" [v; key]])
  end.
Proof.
  unfold_run. simpl. destruct (b_set key v (cached.ttl self) s) as [[[] | err] s1];
    reflexivity.
Qed.

(** The run of [cached.decorator] on a miss. *)
Lemma cached_miss_run (self : cached.t) (f : pyfunc E) (args : list value)
    (kwargs : dict string value) (s s1 : S) (e : E) (r : bres value) :
  let key := cached.get_cache_key self f args kwargs in
  b_get key s = (r, s1) ->
  match r with BVal v => is_None v = true | BFail _ => True end ->
  cached.decorator self f args kwargs (s, e) =
  let read :=
    match r with
    | BVal _ => [EvGet key]
    | BFail _ => [EvGet key; EvLog "Couldn't retrieve %s, unexpected error" [key]]
    end in
  match f_call f args kwargs e with
  | (Ret result, e1) =>
      let '(_, w2, written) := cached.set_in_cache self key result (s1, e1) in
      (Ret result, w2,
       [EvConnEnter] ++ (read ++ EvCall args kwargs :: written) ++ [EvConnExit])
  | (Raise x, e1) =>
      (Raise x, (s1, e1),
       [EvConnEnter] ++ (read ++ [EvCall args kwargs]) ++ [EvConnExit])
  end.
Proof.
  intros key Hget Hmiss.
  unfold cached.decorator, async_with, bind. fold key.
  rewrite get_from_cache_run, Hget.
  destruct r as [v | err].
  - unfold is_not_None. rewrite Hmiss. simpl.
    unfold call. simpl. destruct (f_call f args kwargs e) as [[result | x] e1].
    + rewrite set_in_cache_run.
      destruct (b_set key result (cached.ttl self) s1) as [[[] | err'] s2];
        reflexivity.
    + reflexivity.
  - simpl. unfold call. simpl. destruct (f_call f args kwargs e) as [[result | x] e1].
    + rewrite set_in_cache_run.
      destruct (b_set key result (cached.ttl self) s1) as [[[] | err'] s2];
        reflexivity.
    + reflexivity.
Qed.

(** The run of [cached.decorator] on a hit. *)
Lemma cached_hit_run (self : cached.t) (f : pyfunc E) (args : list value)
    (kwargs : dict string value) (s s1 : S) (e : E) (v : value) :
  let key := cached.get_cache_key self f args kwargs in
  b_get key s = (BVal v, s1) ->
  is_None v = false ->
  cached.decorator self f args kwargs (s, e) =
  (Ret v, (s1, e), [EvConnEnter; EvGet key; EvClose; EvConnExit]).
Proof.
  intros key Hget Hhit.
  unfold cached.decorator, async_with, bind. fold key.
  rewrite get_from_cache_run, Hget. unfold is_not_None. rewrite Hhit. reflexivity.
Qed.

End SingleValueRuns.

(** ** Runs of the multi-key decorator *)

(** The loop over [zip(keys, values)] computes the missing keys and the
    dictionary of the hits. *)
Lemma partition_fold (pairs : list (value * value))
    (missing_keys : list value) (partial : dict value value) :
  fold_left multi_cached.partition_step pairs (missing_keys, partial) =
  (missing_keys ++ map fst (List.filter (fun kv => is_None (snd kv)) pairs),
   dict_update partial (List.filter (fun kv => is_not_None (snd kv)) pairs)).
Proof.
  revert missing_keys partial.
  induction pairs as [ | [k v] pairs IH ]; intros missing_keys partial; simpl.
  - rewrite app_nil_r. reflexivity.
  - unfold is_not_None. simpl. destruct (is_None v); simpl; rewrite IH.
    + rewrite <- app_assoc. reflexivity.
    + reflexivity.
Qed.

Lemma partition_loop (keys values : list value) :
  fold_left multi_cached.partition_step (combine keys values) ([], []) =
  (missing_of keys values, dict_of_pairs (hits_of keys values)).
Proof. apply partition_fold. Qed.

Lemma partial_NoDup (keys values : list value) :
  List.NoDup (dict_keys (dict_of_pairs (hits_of keys values))).
Proof. apply dict_update_NoDup. constructor. Qed.

Section MultiRuns.
Context {S E : Type} `{Backend S}.

(** The batch read: no backend call for no keys, and [None] for every key
    when the backend fails. It never raises and leaves the wrapped
    function's environment alone. *)
Lemma multi_get_from_cache_run (keys : list value) (s : S) (e : E) :
  multi_cached.get_from_cache keys (s, e) =
  match keys with
  | [] => (Ret [], (s, e), [])
  | _ =>
      match b_multi_get keys s with
      | (BVal values, s1) =>
          (Ret values, (s1, e),
           EvMultiGet keys ::
             (if negb (existsb is_None values) then [EvClose] else []))
      | (BFail err, s1) =>
          (Ret (repeat VNone (length keys)), (s1, e),
           [EvMultiGet keys;
            EvLog "Couldn't retrieve %s, unexpected error" [VTuple keys]])
      end
  end.
Proof.
  destruct keys as [ | k keys ]; [ reflexivity | ].
  unfold_run. simpl. destruct (b_multi_get (k :: keys) s) as [[values | err] s1]; simpl.
  - destruct (negb (existsb is_None values)); reflexivity.
  - reflexivity.
Qed.

Lemma multi_set_in_cache_run (self : multi_cached.t) (result : dict value value)
    (s : S) (e : E) :
  multi_cached.set_in_cache self result (s, e) =
  match b_multi_set result (multi_cached.ttl self) s with
  | (BVal _, s1) => (Ret tt, (s1, e), [EvMultiSet result (multi_cached.ttl self)])
  | (BFail err, s1) =>
      (Ret tt, (s1, e),
       [EvMultiSet result (multi_cached.ttl self);
        EvLog "Couldn't set %s, unexpected error" [VDict result]])
  end.
Proof.
  unfold_run. simpl.
  destruct (b_multi_set result (multi_cached.ttl self) s) as [[[] | err] s1];
    reflexivity.
Qed.

(** The run of [multi_cached.decorator] once the keys are derived, in terms
    of what the batch read returned. *)
Lemma multi_decorator_run (self : multi_cached.t) (f : pyfunc E)
    (args : list value) (kwargs : dict string value) (keys values : list value)
    (s s1 : S) (e : E) (read : list event) :
  multi_cached.get_cache_keys self f args kwargs = Ret keys ->
  multi_cached.get_from_cache keys (s, e) = (Ret values, (s1, e), read) ->
  multi_cached.decorator self f args kwargs (s, e) =
  let partial := dict_of_pairs (hits_of keys values) in
  let kwargs' :=
    dict_set kwargs (multi_cached.keys_from_attr self)
             (VList (missing_of keys values)) in
  if match values with [] => false | _ => true end && negb (existsb is_None values)
  then (Ret (VDict partial), (s1, e), [EvConnEnter] ++ read ++ [EvConnExit])
  else
    match f_call f args kwargs' e with
    | (Ret result, e1) =>
        match multi_cached.update result partial with
        | Ret merged =>
            let '(_, w2, written) :=
              multi_cached.set_in_cache self merged (s1, e1) in
            (Ret (VDict merged), w2,
             [EvConnEnter] ++ (read ++ EvCall args kwargs' :: written)
               ++ [EvConnExit])
        | Raise x =>
            (Raise x, (s1, e1),
             [EvConnEnter] ++ (read ++ [EvCall args kwargs']) ++ [EvConnExit])
        end
    | (Raise x, e1) =>
        (Raise x, (s1, e1),
         [EvConnEnter] ++ (read ++ [EvCall args kwargs']) ++ [EvConnExit])
    end.
Proof.
  intros Hkeys Hread.
  unfold multi_cached.decorator, async_with, bind, lift_outcome.
  rewrite Hkeys, Hread, partition_loop. simpl.
  destruct (match values with [] => false | _ => true end
            && negb (existsb is_None values)); simpl.
  - rewrite app_nil_r. reflexivity.
  - unfold call. simpl.
    destruct (f_call f args _ e) as [[result | x] e1]; simpl.
    + destruct (multi_cached.update result _) as [merged | x]; simpl.
      * rewrite multi_set_in_cache_run.
        destruct (b_multi_set merged (multi_cached.ttl self) s1) as [[[] | err] s2];
          simpl; reflexivity.
      * reflexivity.
    + reflexivity.
Qed.

End MultiRuns.

(** ** Key derivation from an attribute *)

(** C2, as stated, fails: with [key_from_attr="pick_me"] and a call
    [stub(1, 2)] whose bindings have no [pick_me], no error is raised. The
    derivation produces the derived key, and the decorated call runs to its
    end on that key. *)
Lemma get_cache_key_missing_attr_counterexample :
  let self := {| cached.ttl := VNone; cached.key := VNone;
                 cached.key_from_attr := Some "pick_me";
                 cached.noself := false |} in
  dict_get (_get_args_dict samples.stub [VInt 1; VInt 2] []) "pick_me" = None /\
  cached.get_cache_key self samples.stub [VInt 1; VInt 2] [] =
    VStr "stub(1, 2)[]" /\
  cached.decorator (H := memory.backend) self samples.stub [VInt 1; VInt 2] []
    ([], 7%nat) =
    (Ret (VStr "7"), ([(VStr "stub(1, 2)[]", VStr "7")], 8%nat),
     [EvConnEnter; EvGet (VStr "stub(1, 2)[]"); EvCall [VInt 1; VInt 2] [];
      EvSet (VStr "stub(1, 2)[]") (VStr "7") VNone; EvConnExit]) /\
  (forall attr,
     fst (fst (cached.decorator (H := memory.backend) self samples.stub
                 [VInt 1; VInt 2] [] ([], 7%nat))) <> Raise (KeyError attr)).
Proof.
  repeat split; try reflexivity. intros attr. vm_compute. discriminate.
Qed.

(** C2, amended: with no explicit key and a key-source attribute that the
    resolved bindings lack, key derivation does not fail: it falls back to
    the key derived from module, name, positional and keyword arguments. *)
Theorem get_cache_key_missing_attr_falls_back {E : Type} (self : cached.t)
    (f : pyfunc E) (args : list value) (kwargs : dict string value)
    (attr : string) :
  truthy (cached.key self) = false ->
  cached.key_from_attr self = Some attr ->
  dict_get (_get_args_dict f args kwargs) attr = None ->
  cached.get_cache_key self f args kwargs =
  VStr (cached._key_from_args self f args kwargs).
Proof.
  intros Hkey Hattr Hlack. unfold cached.get_cache_key.
  rewrite Hkey, Hattr, Hlack. reflexivity.
Qed.

Lemma get_cache_key_missing_attr_falls_back_witness :
  cached.get_cache_key
    {| cached.ttl := VNone; cached.key := VNone;
       cached.key_from_attr := Some "pick_me"; cached.noself := false |}
    samples.stub [VInt 1; VInt 2] [("a", VInt 1)] =
  VStr "stub(1, 2)[('a', 1)]".
Proof.
  apply (get_cache_key_missing_attr_falls_back
           {| cached.ttl := VNone; cached.key := VNone;
              cached.key_from_attr := Some "pick_me"; cached.noself := false |}
           samples.stub [VInt 1; VInt 2] [("a", VInt 1)] "pick_me");
    reflexivity.
Defined.

(** When the bindings do hold the attribute, its value is the key. *)
Lemma get_cache_key_from_attr {E : Type} (self : cached.t)
    (f : pyfunc E) (args : list value) (kwargs : dict string value)
    (attr : string) (v : value) :
  truthy (cached.key self) = false ->
  cached.key_from_attr self = Some attr ->
  dict_get (_get_args_dict f args kwargs) attr = Some v ->
  cached.get_cache_key self f args kwargs = v.
Proof.
  intros Hkey Hattr Hget. unfold cached.get_cache_key.
  rewrite Hkey, Hattr, Hget. reflexivity.
Qed.

(** ** Traces *)

Lemma calls_of_app (t1 t2 : list event) :
  calls_of (t1 ++ t2) = calls_of t1 ++ calls_of t2.
Proof.
  induction t1 as [ | ev t1 IH ]; simpl; [ reflexivity | ].
  destruct ev; simpl; rewrite IH; reflexivity.
Qed.

Lemma multi_sets_of_app (t1 t2 : list event) :
  multi_sets_of (t1 ++ t2) = multi_sets_of t1 ++ multi_sets_of t2.
Proof.
  induction t1 as [ | ev t1 IH ]; simpl; [ reflexivity | ].
  destruct ev; simpl; rewrite IH; reflexivity.
Qed.

Lemma sets_of_app (t1 t2 : list event) :
  sets_of (t1 ++ t2) = sets_of t1 ++ sets_of t2.
Proof.
  induction t1 as [ | ev t1 IH ]; simpl; [ reflexivity | ].
  destruct ev; simpl; rewrite IH; reflexivity.
Qed.

(** ** The batch read, case by case *)

Section MultiReads.
Context {S E : Type} `{Backend S}.


Lemma multi_read_some_missing (keys values : list value) (s s1 : S) (e : E) :
  keys <> [] ->
  b_multi_get keys s = (BVal values, s1) ->
  existsb is_None values = true ->
  multi_cached.get_from_cache keys (s, e) =
  (Ret values, (s1, e), [EvMultiGet keys]).
Proof.
  intros Hne Hget Hmiss. rewrite multi_get_from_cache_run.
  destruct keys as [ | k keys ]; [ contradiction | ].
  rewrite Hget, Hmiss. reflexivity.
Qed.

Lemma multi_read_full_hit (keys values : list value) (s s1 : S) (e : E) :
  keys <> [] ->
  b_multi_get keys s = (BVal values, s1) ->
  existsb is_None values = false ->
  multi_cached.get_from_cache keys (s, e) =
  (Ret values, (s1, e), [EvMultiGet keys; EvClose]).
Proof.
  intros Hne Hget Hhit. rewrite multi_get_from_cache_run.
  destruct keys as [ | k keys ]; [ contradiction | ].
  rewrite Hget, Hhit. reflexivity.
Qed.

Lemma multi_read_failed (keys : list value) (err : string) (s s1 : S) (e : E) :
  keys <> [] ->
  b_multi_get keys s = (BFail err, s1) ->
  multi_cached.get_from_cache keys (s, e) =
  (Ret (repeat VNone (length keys)), (s1, e),
   [EvMultiGet keys;
    EvLog "Couldn't retrieve %s, unexpected error" [VTuple keys]]).
Proof.
  intros Hne Hget. rewrite multi_get_from_cache_run.
  destruct keys as [ | k keys ]; [ contradiction | ].
  rewrite Hget. reflexivity.
Qed.

End MultiReads.

Lemma aligned_nonempty (keys values : list value) :
  length values = length keys -> existsb is_None values = true -> keys <> [].
Proof.
  intros Hlen Hex ->. destruct values; [ discriminate | discriminate ].
Qed.

Lemma missing_of_all_None (keys : list value) :
  missing_of keys (repeat VNone (length keys)) = keys.
Proof.
  unfold missing_of. induction keys as [ | k keys IH ]; simpl; [ reflexivity | ].
  f_equal. exact IH.
Qed.

Lemma hits_of_all_None (keys : list value) :
  hits_of keys (repeat VNone (length keys)) = [].
Proof.
  unfold hits_of. induction keys as [ | k keys IH ]; simpl; [ reflexivity | exact IH ].
Qed.

(** The hits of a read without [None] are all the pairs. *)
Lemma hits_of_full (keys values : list value) :
  existsb is_None values = false -> hits_of keys values = combine keys values.
Proof.
  unfold hits_of. revert keys.
  induction values as [ | v values IH ]; intros keys Hex.
  - destruct keys; reflexivity.
  - destruct keys as [ | k keys ]; [ reflexivity | ]. simpl in *.
    apply orb_false_iff in Hex as [Hv Hrest]. unfold is_not_None at 1. simpl.
    rewrite Hv. simpl. f_equal. apply IH, Hrest.
Qed.

Lemma dict_keys_of_pairs {K V : Type} `{PyEqLaw K} (pairs : list (K * V)) (k : K) :
  In k (dict_keys (dict_of_pairs pairs)) <-> In k (map fst pairs).
Proof.
  unfold dict_of_pairs. rewrite dict_keys_update. simpl. unfold dict_keys. tauto.
Qed.

Lemma map_fst_combine (keys values : list value) :
  length values = length keys -> map fst (combine keys values) = keys.
Proof.
  revert values. induction keys as [ | k keys IH ]; intros [ | v values ] Hlen;
    simpl in *; try reflexivity; try discriminate.
  f_equal. apply IH. congruence.
Qed.

(** ** The multi-key decorator on a miss and on a hit *)

Section MultiClaims.
Context {S E : Type} `{Backend S}.

(** What the decorator does on a partial hit: the wrapped function is called
    exactly once, with the positional arguments as given and the keys
    attribute set, among the keyword arguments, to the missing keys only;
    when that call returns a mapping, the decorated call returns that
    mapping updated with the hits, which reads a hit where there is one and
    the computed value elsewhere. *)
Lemma multi_partial_hit (self : multi_cached.t) (f : pyfunc E)
    (args : list value) (kwargs : dict string value)
    (keys values : list value) (s s1 : S) (e : E)
    (o : outcome value) (w : S * E) (tr : list event) :
  multi_cached.get_cache_keys self f args kwargs = Ret keys ->
  b_multi_get keys s = (BVal values, s1) ->
  length values = length keys ->
  existsb is_None values = true ->
  existsb is_not_None values = true ->
  multi_cached.decorator self f args kwargs (s, e) = (o, w, tr) ->
  let kwargs' :=
    dict_set kwargs (multi_cached.keys_from_attr self)
             (VList (missing_of keys values)) in
  let partial := dict_of_pairs (hits_of keys values) in
  calls_of tr = [(args, kwargs')] /\
  forall computed e1,
    f_call f args kwargs' e = (Ret (VDict computed), e1) ->
    o = Ret (VDict (dict_update computed partial)) /\
    forall k,
      dict_get (dict_update computed partial) k =
      match dict_get partial k with
      | Some v => Some v
      | None => dict_get computed k
      end.
Proof.
  intros Hkeys Hget Hlen Hmiss _ Hrun kwargs' partial.
  pose proof (aligned_nonempty keys values Hlen Hmiss) as Hne.
  rewrite (multi_decorator_run self f args kwargs keys values s s1 e _ Hkeys
             (multi_read_some_missing keys values s s1 e Hne Hget Hmiss)) in Hrun.
  simpl in Hrun. rewrite Hmiss, andb_false_r in Hrun.
  fold kwargs' partial in Hrun.
  destruct (f_call f args kwargs' e) as [[result | x] e1'] eqn:Hcall.
  - destruct (multi_cached.update result partial) as [merged | x] eqn:Hupd.
    + rewrite multi_set_in_cache_run in Hrun.
      destruct (b_multi_set merged (multi_cached.ttl self) s1) as [[[] | err] s2];
        injection Hrun as <- <- <-; (split; [ reflexivity | ]);
        intros computed e1 [= -> <-]; simpl in Hupd; injection Hupd as <-;
        (split; [ reflexivity | ]); intros k;
        apply dict_get_update, partial_NoDup.
    + injection Hrun as <- <- <-. split; [ reflexivity | ].
      intros computed e1 [= -> <-]. discriminate.
  - injection Hrun as <- <- <-. split; [ reflexivity | ].
    intros computed e1 [= ].
Qed.


End MultiClaims.

Lemma multi_partial_hit_witness :
  calls_of
    (snd (multi_cached.decorator (H := memory.backend) samples.by_keys
            samples.stub_dict [VInt 1]
            [("keys", VList [VStr "a"; VStr "b"]); ("value", VStr "value")]
            ([(VStr "a", VInt 1)], 7%nat))) =
  [([VInt 1], [("keys", VList [VStr "b"]); ("value", VStr "value")])] /\
  fst (fst (multi_cached.decorator (H := memory.backend) samples.by_keys
              samples.stub_dict [VInt 1]
              [("keys", VList [VStr "a"; VStr "b"]); ("value", VStr "value")]
              ([(VStr "a", VInt 1)], 7%nat))) =
  Ret (VDict [(VStr "b", VInt 7); (VStr "a", VInt 1)]).
Proof.
  destruct (multi_partial_hit (H := memory.backend) samples.by_keys
              samples.stub_dict [VInt 1]
              [("keys", VList [VStr "a"; VStr "b"]); ("value", VStr "value")]
              [VStr "a"; VStr "b"] [VInt 1; VNone]
              [(VStr "a", VInt 1)] [(VStr "a", VInt 1)] 7%nat
              _ _ _
              eq_refl eq_refl eq_refl eq_refl eq_refl eq_refl) as [Hcalls Hret].
  split.
  - exact Hcalls.
  - exact (proj1 (Hret [(VStr "b", VInt 7)] 8%nat eq_refl)).
Defined.

(** C5, where the code departs from it. The keys attribute names "arg or
    kwarg" of the function, and the keys are read from a positional argument
    as well; but the missing keys are always handed over by keyword. So the
    decorated [lookup(['a', 'b'])], with [a] cached as [1] and [b] absent:
    the keys are [a] and [b], the read is a partial hit, and the wrapped
    function is called with the requested keys, both of them, at their
    position and with the missing key under the keyword. Python refuses that
    call with [TypeError]: the body of the function does not run, the caller
    gets the [TypeError] and nothing is written. The same call with the keys
    given by keyword returns the cached [a] and the computed [b]. *)
Lemma multi_partial_hit_positional_keys :
  let a := VStr "a" in
  let b := VStr "b" in
  let store := [(a, VInt 1)] in
  let run :=
    multi_cached.decorator (H := memory.backend) samples.by_keys samples.lookup
      [VList [a; b]] [] (store, 7%nat) in
  let by_keyword :=
    multi_cached.decorator (H := memory.backend) samples.by_keys samples.lookup
      [] [("keys", VList [a; b])] (store, 7%nat) in
  multi_cached.get_cache_keys samples.by_keys samples.lookup [VList [a; b]] [] =
    Ret [a; b] /\
  @b_multi_get _ memory.backend [a; b] store = (BVal [VInt 1; VNone], store) /\
  calls_of (snd run) = [([VList [a; b]], [("keys", VList [b])])] /\
  fst run =
    (Raise (TypeError "lookup() got multiple values for argument 'keys'"),
     (store, 7%nat)) /\
  multi_sets_of (snd run) = [] /\
  calls_of (snd by_keyword) = [([], [("keys", VList [b])])] /\
  fst (fst by_keyword) = Ret (VDict [(b, VInt 7); (a, VInt 1)]).
Proof. repeat split; reflexivity. Qed.


(** ** What the batch write stores *)

(** C3, as stated, fails: with [a] cached as [1] and [b] absent, the wrapped
    function computes the entry of [b] alone, and the batch write stores the
    entry of [b] and, again, the hit [a]. *)
Lemma multi_set_rewrites_hits_counterexample :
  let run :=
    multi_cached.decorator (H := memory.backend) samples.by_keys
      samples.stub_dict [VInt 1] [("keys", VList [VStr "a"; VStr "b"])]
      ([(VStr "a", VInt 1)], 7%nat) in
  calls_of (snd run) = [([VInt 1], [("keys", VList [VStr "b"])])] /\
  fst (f_call samples.stub_dict [VInt 1] [("keys", VList [VStr "b"])] 7%nat) =
    Ret (VDict [(VStr "b", VInt 7)]) /\
  multi_sets_of (snd run) =
    [([(VStr "b", VInt 7); (VStr "a", VInt 1)], VInt 0)] /\
  multi_sets_of (snd run) <> [([(VStr "b", VInt 7)], VInt 0)].
Proof.
  repeat split; try reflexivity. vm_compute. discriminate.
Qed.

Section MultiWrites.
Context {S E : Type} `{Backend S}.

(** C3, amended: on a call with at least one missing key, when the wrapped
    function returns a mapping, there is one batch write, under the
    configured TTL, and it stores every entry of the merged mapping that the
    call returns: the entries the wrapped function computed and, once more,
    the entries that were cache hits. *)
Theorem multi_set_writes_merged (self : multi_cached.t) (f : pyfunc E)
    (args : list value) (kwargs : dict string value)
    (keys values : list value) (computed : dict value value)
    (s s1 : S) (e e1 : E) :
  multi_cached.get_cache_keys self f args kwargs = Ret keys ->
  b_multi_get keys s = (BVal values, s1) ->
  length values = length keys ->
  existsb is_None values = true ->
  f_call f args
    (dict_set kwargs (multi_cached.keys_from_attr self)
              (VList (missing_of keys values))) e = (Ret (VDict computed), e1) ->
  let run := multi_cached.decorator self f args kwargs (s, e) in
  let partial := dict_of_pairs (hits_of keys values) in
  let merged := dict_update computed partial in
  fst (fst run) = Ret (VDict merged) /\
  multi_sets_of (snd run) = [(merged, multi_cached.ttl self)] /\
  (forall k v, dict_get partial k = Some v -> In (k, v) merged) /\
  (forall k v, dict_get partial k = None -> dict_get computed k = Some v ->
               In (k, v) merged).
Proof.
  intros Hkeys Hget Hlen Hmiss Hcall run partial merged.
  pose proof (aligned_nonempty keys values Hlen Hmiss) as Hne.
  unfold run.
  rewrite (multi_decorator_run self f args kwargs keys values s s1 e _ Hkeys
             (multi_read_some_missing keys values s s1 e Hne Hget Hmiss)).
  simpl. rewrite Hmiss, andb_false_r, Hcall. simpl.
  fold partial merged. rewrite multi_set_in_cache_run.
  assert (Hlookup : forall k, dict_get merged k =
                              match dict_get partial k with
                              | Some v => Some v
                              | None => dict_get computed k
                              end).
  { intros k. apply dict_get_update, partial_NoDup. }
  destruct (b_multi_set merged (multi_cached.ttl self) s1) as [[[] | err] s2];
    simpl; (split; [ reflexivity | ]); (split; [ reflexivity | ]); split;
    intros k v Hk; try intros Hc; apply dict_get_Some_In; rewrite Hlookup, Hk;
    auto.
Qed.

End MultiWrites.

Lemma multi_set_writes_merged_witness :
  multi_sets_of
    (snd (multi_cached.decorator (H := memory.backend) samples.by_keys
            samples.stub_dict [VInt 1] [("keys", VList [VStr "a"; VStr "b"])]
            ([(VStr "a", VInt 1)], 7%nat))) =
  [([(VStr "b", VInt 7); (VStr "a", VInt 1)], VInt 0)].
Proof.
  exact (proj1 (proj2
    (multi_set_writes_merged (H := memory.backend) samples.by_keys
       samples.stub_dict [VInt 1] [("keys", VList [VStr "a"; VStr "b"])]
       [VStr "a"; VStr "b"] [VInt 1; VNone] [(VStr "b", VInt 7)]
       [(VStr "a", VInt 1)] [(VStr "a", VInt 1)] 7%nat 8%nat
       eq_refl eq_refl eq_refl eq_refl eq_refl))).
Defined.

(** ** The keys of the returned mapping *)

(** C4, as stated, fails: with a key builder that prefixes the market, the
    call for [a] on market [ES], served from the cache, returns a mapping
    whose only key is the transformed key [ES_a]; it has no entry for [a]. *)
Lemma multi_result_keys_counterexample :
  let kwargs := [("keys", VList [VStr "a"]); ("market", VStr "ES")] in
  let run :=
    multi_cached.decorator (H := memory.backend) samples.by_market
      samples.stub_dict [] kwargs ([(VStr "ES_a", VInt 1)], 7%nat) in
  dict_get kwargs "keys" = Some (VList [VStr "a"]) /\
  multi_cached.get_cache_keys samples.by_market samples.stub_dict [] kwargs =
    Ret [VStr "ES_a"] /\
  fst (fst run) = Ret (VDict [(VStr "ES_a", VInt 1)]) /\
  dict_get [(VStr "ES_a", VInt 1)] (VStr "a") = None.
Proof. repeat split; reflexivity. Qed.

Section MultiKeys.
Context {S E : Type} `{Backend S}.

(** The keys used against the cache are the requested keys, each one passed
    through the key builder. *)
Lemma get_cache_keys_transformed (self : multi_cached.t) (f : pyfunc E)
    (args : list value) (kwargs : dict string value)
    (requested : value) (original : list value) :
  dict_get (_get_args_dict f args kwargs) (multi_cached.keys_from_attr self) =
    Some requested ->
  iterate requested = Ret original ->
  multi_cached.get_cache_keys self f args kwargs =
  map_outcome
    (fun key => multi_cached._key_builder self key (_get_args_dict f args kwargs))
    original.
Proof.
  intros Hattr Hiter. unfold multi_cached.get_cache_keys.
  rewrite Hattr, Hiter. reflexivity.
Qed.

(** C4, amended: the mapping returned to the caller is keyed by the
    transformed keys, those used against the cache. On a full hit its keys
    are the transformed requested keys; on a miss it is the mapping that the
    wrapped function returned, with the hits added under their transformed
    keys. *)
Theorem multi_result_keyed_by_cache_keys (self : multi_cached.t) (f : pyfunc E)
    (args : list value) (kwargs : dict string value)
    (requested : value) (original keys values : list value)
    (s s1 : S) (e : E) :
  dict_get (_get_args_dict f args kwargs) (multi_cached.keys_from_attr self) =
    Some requested ->
  iterate requested = Ret original ->
  map_outcome
    (fun key => multi_cached._key_builder self key (_get_args_dict f args kwargs))
    original = Ret keys ->
  keys <> [] ->
  b_multi_get keys s = (BVal values, s1) ->
  length values = length keys ->
  let o := fst (fst (multi_cached.decorator self f args kwargs (s, e))) in
  (existsb is_None values = false ->
   exists partial,
     o = Ret (VDict partial) /\
     forall k, In k (dict_keys partial) <-> In k keys) /\
  (existsb is_None values = true ->
   forall computed e1,
     f_call f args
       (dict_set kwargs (multi_cached.keys_from_attr self)
                 (VList (missing_of keys values))) e =
       (Ret (VDict computed), e1) ->
     exists merged,
       o = Ret (VDict merged) /\
       forall k, In k (dict_keys merged) <->
                 In k (dict_keys computed) \/ In k (map fst (hits_of keys values))).
Proof.
  intros Hattr Hiter Hmap Hne Hget Hlen o.
  assert (Hkeys : multi_cached.get_cache_keys self f args kwargs = Ret keys).
  { rewrite (get_cache_keys_transformed self f args kwargs requested original);
      assumption. }
  split.
  - intros Hhit. unfold o.
    rewrite (multi_decorator_run self f args kwargs keys values s s1 e _ Hkeys
               (multi_read_full_hit keys values s s1 e Hne Hget Hhit)).
    simpl. rewrite Hhit.
    destruct values as [ | v values ].
    { destruct keys; [ contradiction | discriminate ]. }
    simpl. eexists. split; [ reflexivity | ].
    intros k. rewrite dict_keys_of_pairs, hits_of_full by exact Hhit.
    rewrite map_fst_combine by exact Hlen. tauto.
  - intros Hmiss computed e1 Hcall. unfold o.
    rewrite (multi_decorator_run self f args kwargs keys values s s1 e _ Hkeys
               (multi_read_some_missing keys values s s1 e Hne Hget Hmiss)).
    simpl. rewrite Hmiss, andb_false_r, Hcall. simpl.
    rewrite multi_set_in_cache_run.
    destruct (b_multi_set _ (multi_cached.ttl self) s1) as [[[] | err] s2];
      simpl; eexists; (split; [ reflexivity | ]); intros k;
      rewrite dict_keys_update, dict_keys_of_pairs; tauto.
Qed.

End MultiKeys.

Lemma multi_result_keyed_by_cache_keys_witness :
  exists partial,
    fst (fst (multi_cached.decorator (H := memory.backend) samples.by_market
                samples.stub_dict []
                [("keys", VList [VStr "a"]); ("market", VStr "ES")]
                ([(VStr "ES_a", VInt 1)], 7%nat))) = Ret (VDict partial) /\
    forall k, In k (dict_keys partial) <-> In k [VStr "ES_a"].
Proof.
  exact (proj1
    (multi_result_keyed_by_cache_keys (H := memory.backend) samples.by_market
       samples.stub_dict [] [("keys", VList [VStr "a"]); ("market", VStr "ES")]
       (VList [VStr "a"]) [VStr "a"] [VStr "ES_a"] [VInt 1]
       [(VStr "ES_a", VInt 1)] [(VStr "ES_a", VInt 1)] 7%nat
       eq_refl eq_refl eq_refl ltac:(discriminate) eq_refl eq_refl) eq_refl).
Defined.

(** ** The stampede-guarded decorator, run alone *)

Section StampedeRuns.
Context {S E : Type} {B : Backend S} {L : Lock S}.

Lemma stampede_first_hit_run (self : cached_stampede.t) (f : pyfunc E)
    (args : list value) (kwargs : dict string value) (s s1 : S) (e : E)
    (v : value) :
  let key := cached.get_cache_key (cached_stampede.base self) f args kwargs in
  b_get key s = (BVal v, s1) ->
  is_None v = false ->
  cached_stampede.decorator self f args kwargs (s, e) =
  (Ret v, (s1, e), [EvGet key; EvClose]).
Proof.
  intros key Hget Hhit. unfold cached_stampede.decorator, bind. fold key.
  rewrite get_from_cache_run, Hget. unfold is_not_None. rewrite Hhit. reflexivity.
Qed.

(** The block under the lock. *)
Lemma critical_section_hit_run (self : cached_stampede.t) (f : pyfunc E)
    (args : list value) (kwargs : dict string value) (key : value)
    (s s1 : S) (e : E) (v : value) :
  b_get key s = (BVal v, s1) ->
  is_None v = false ->
  cached_stampede.critical_section self f args kwargs key (s, e) =
  (Ret (Returns v), (s1, e), [EvGet key; EvClose]).
Proof.
  intros Hget Hhit. unfold cached_stampede.critical_section, bind.
  rewrite get_from_cache_run, Hget. unfold is_not_None. rewrite Hhit. reflexivity.
Qed.

Lemma critical_section_miss_run (self : cached_stampede.t) (f : pyfunc E)
    (args : list value) (kwargs : dict string value) (key : value)
    (s s1 : S) (e : E) (r : bres value) :
  b_get key s = (r, s1) ->
  misses r ->
  cached_stampede.critical_section self f args kwargs key (s, e) =
  match f_call f args kwargs e with
  | (Ret result, e1) =>
      let '(_, w2, written) :=
        cached.set_in_cache (cached_stampede.base self) key result (s1, e1) in
      (Ret (Falls result), w2, read_trace key r ++ EvCall args kwargs :: written)
  | (Raise x, e1) =>
      (Raise x, (s1, e1), read_trace key r ++ [EvCall args kwargs])
  end.
Proof.
  intros Hget Hmiss. unfold cached_stampede.critical_section, bind.
  rewrite get_from_cache_run, Hget.
  destruct r as [v | err]; simpl in Hmiss |- *; unfold is_not_None;
    try rewrite Hmiss; simpl; unfold call; simpl;
    (destruct (f_call f args kwargs e) as [[result | x] e1];
     [ rewrite set_in_cache_run;
       destruct (b_set key result _ s1) as [[[] | err'] s2]; reflexivity
     | reflexivity ]).
Qed.

(** After a first lookup that misses, the call is the locked block and the
    [return result] that follows it. *)
Lemma stampede_after_miss_run (self : cached_stampede.t) (f : pyfunc E)
    (args : list value) (kwargs : dict string value) (s s1 : S) (e : E)
    (r : bres value) :
  let key := cached.get_cache_key (cached_stampede.base self) f args kwargs in
  b_get key s = (r, s1) ->
  misses r ->
  cached_stampede.decorator self f args kwargs (s, e) =
  let '(o, w, t) :=
    async_with_lock key (cached_stampede.lease self)
      (cached_stampede.critical_section self f args kwargs key) (s1, e) in
  (match o with
   | Ret (Some (Returns v)) => Ret v
   | Ret (Some (Falls result)) => Ret result
   | Ret None => Raise (UnboundLocalError "result")
   | Raise x => Raise x
   end, w, read_trace key r ++ t).
Proof.
  intros key Hget Hmiss. unfold cached_stampede.decorator, bind. fold key.
  rewrite get_from_cache_run, Hget.
  destruct r as [v0 | err]; simpl in Hmiss |- *; unfold is_not_None;
    try rewrite Hmiss; simpl;
    (destruct (async_with_lock key _ _ (s1, e)) as [[[[[v | result] | ] | x] w] t];
     simpl; rewrite ?app_nil_r; reflexivity).
Qed.

Lemma stampede_enter_failure_run (self : cached_stampede.t) (f : pyfunc E)
    (args : list value) (kwargs : dict string value) (s s1 s2 : S) (e : E)
    (r : bres value) (err : string) :
  let key := cached.get_cache_key (cached_stampede.base self) f args kwargs in
  b_get key s = (r, s1) ->
  misses r ->
  l_enter key (cached_stampede.lease self) s1 = (BFail err, s2) ->
  cached_stampede.decorator self f args kwargs (s, e) =
  (Raise (BackendError err), (s2, e),
   read_trace key r ++ [EvLockEnter key (cached_stampede.lease self)]).
Proof.
  intros key Hget Hmiss Henter.
  rewrite (stampede_after_miss_run self f args kwargs s s1 e r Hget Hmiss).
  fold key. unfold async_with_lock. simpl. rewrite Henter. reflexivity.
Qed.

Lemma stampede_second_hit_run (self : cached_stampede.t) (f : pyfunc E)
    (args : list value) (kwargs : dict string value) (s s1 s2 s3 s4 : S) (e : E)
    (r : bres value) (v : value) (swallow : bool) :
  let key := cached.get_cache_key (cached_stampede.base self) f args kwargs in
  b_get key s = (r, s1) ->
  misses r ->
  l_enter key (cached_stampede.lease self) s1 = (BVal tt, s2) ->
  b_get key s2 = (BVal v, s3) ->
  is_None v = false ->
  l_exit key (cached_stampede.lease self) None s3 = (BVal swallow, s4) ->
  cached_stampede.decorator self f args kwargs (s, e) =
  (Ret v, (s4, e),
   read_trace key r ++
   [EvLockEnter key (cached_stampede.lease self); EvGet key; EvClose;
    EvLockExit key]).
Proof.
  intros key Hget Hmiss Henter Hget2 Hhit Hexit.
  rewrite (stampede_after_miss_run self f args kwargs s s1 e r Hget Hmiss).
  fold key. unfold async_with_lock. simpl. rewrite Henter.
  rewrite (critical_section_hit_run self f args kwargs key s2 s3 e v Hget2 Hhit).
  simpl. rewrite Hexit. reflexivity.
Qed.

Lemma stampede_miss_run (self : cached_stampede.t) (f : pyfunc E)
    (args : list value) (kwargs : dict string value) (s s1 s2 s3 : S) (e : E)
    (r r2 : bres value) :
  let key := cached.get_cache_key (cached_stampede.base self) f args kwargs in
  let lease := cached_stampede.lease self in
  b_get key s = (r, s1) ->
  misses r ->
  l_enter key lease s1 = (BVal tt, s2) ->
  b_get key s2 = (r2, s3) ->
  misses r2 ->
  cached_stampede.decorator self f args kwargs (s, e) =
  match f_call f args kwargs e with
  | (Ret result, e1) =>
      let '(_, w4, written) :=
        cached.set_in_cache (cached_stampede.base self) key result (s3, e1) in
      let tr :=
        read_trace key r ++
        [EvLockEnter key lease] ++
        (read_trace key r2 ++ EvCall args kwargs :: written) ++ [EvLockExit key] in
      match l_exit key lease None (fst w4) with
      | (BVal _, s5) => (Ret result, (s5, snd w4), tr)
      | (BFail err, s5) => (Raise (BackendError err), (s5, snd w4), tr)
      end
  | (Raise x, e1) =>
      let tr :=
        read_trace key r ++
        [EvLockEnter key lease] ++
        (read_trace key r2 ++ [EvCall args kwargs]) ++ [EvLockExit key] in
      match l_exit key lease (Some x) s3 with
      | (BVal swallow, s4) =>
          (if swallow then Raise (UnboundLocalError "result") else Raise x,
           (s4, e1), tr)
      | (BFail err, s4) => (Raise (BackendError err), (s4, e1), tr)
      end
  end.
Proof.
  intros key lease Hget Hmiss Henter Hget2 Hmiss2.
  rewrite (stampede_after_miss_run self f args kwargs s s1 e r Hget Hmiss).
  fold key lease. unfold async_with_lock. simpl. rewrite Henter.
  rewrite (critical_section_miss_run self f args kwargs key s2 s3 e r2 Hget2 Hmiss2).
  destruct (f_call f args kwargs e) as [[result | x] e1].
  - rewrite set_in_cache_run.
    destruct (b_set key result _ s3) as [[[] | err'] s4]; simpl;
      destruct (l_exit key lease None s4) as [[swallow | err] s5]; reflexivity.
  - simpl. destruct (l_exit key lease (Some x) s3) as [[[ | ] | err] s4];
      reflexivity.
Qed.

End StampedeRuns.

(** ** Failures of the wrapped function *)

Ltac split_in H :=
  simpl in H;
  repeat (destruct H as [H | H]; try discriminate H); try contradiction.

Ltac norm_calls H Hnocall :=
  repeat (progress simpl in H || rewrite calls_of_app in H);
  rewrite ?Hnocall in H; simpl in H.

Section Failures.
Context {S E : Type} `{Backend S}.

Lemma cached_failure_propagates (self : cached.t) (f : pyfunc E)
    (args : list value) (kwargs : dict string value) (s : S) (e : E)
    (o : outcome value) (w : S * E) (tr : list event)
    (a : list value) (k : dict string value) (x : exn) :
  cached.decorator self f args kwargs (s, e) = (o, w, tr) ->
  In (EvCall a k) tr ->
  fst (f_call f a k e) = Raise x ->
  o = Raise x /\ List.filter is_write tr = [].
Proof.
  intros Hrun Hin Hraise.
  destruct (b_get (cached.get_cache_key self f args kwargs) s) as [r s1] eqn:Hget.
  assert (Hcases : misses r \/ exists v, r = BVal v /\ is_None v = false).
  { destruct r as [v | err]; simpl; [ | auto ].
    destruct (is_None v) eqn:Hv; eauto. }
  destruct Hcases as [Hmiss | (v & -> & Hhit)].
  - rewrite (cached_miss_run self f args kwargs s s1 e r Hget Hmiss) in Hrun.
    destruct (f_call f args kwargs e) as [[result | x'] e1] eqn:Hcall.
    + rewrite set_in_cache_run in Hrun.
      destruct (b_set _ result _ s1) as [[[] | err'] s2];
        injection Hrun as <- <- <-; destruct r; split_in Hin;
        injection Hin as <- <-; rewrite Hcall in Hraise; discriminate.
    + injection Hrun as <- <- <-.
      destruct r; split_in Hin; injection Hin as <- <-;
        rewrite Hcall in Hraise; simpl in Hraise; injection Hraise as ->;
        split; reflexivity.
  - rewrite (cached_hit_run self f args kwargs s s1 e v Hget Hhit) in Hrun.
    injection Hrun as <- <- <-. split_in Hin.
Qed.

(** Whatever the backend does, the batch read returns a list and performs
    neither a call nor a write. *)
Lemma multi_read_total (keys : list value) (s : S) (e : E) :
  exists values s1 read,
    multi_cached.get_from_cache keys (s, e) = (Ret values, (s1, e), read) /\
    calls_of read = [] /\ List.filter is_write read = [].
Proof.
  rewrite multi_get_from_cache_run. destruct keys as [ | k0 keys ].
  - exists [], s, []. repeat split.
  - destruct (b_multi_get (k0 :: keys) s) as [[values | err] s1].
    + eexists _, _, _. split; [ reflexivity | ].
      destruct (negb (existsb is_None values)); split; reflexivity.
    + eexists _, _, _. repeat split.
Qed.

Lemma In_calls_of (tr : list event) (a : list value) (k : dict string value) :
  In (EvCall a k) tr <-> In (a, k) (calls_of tr).
Proof.
  induction tr as [ | ev tr IH ]; simpl; [ tauto | ].
  destruct ev; simpl; rewrite <- IH; split;
    try (intros [Heq | Hin]; [ discriminate Heq | exact Hin ]);
    try (intros Hin; right; exact Hin).
  - intros [ [= -> ->] | Hin ]; auto.
  - intros [ [= -> ->] | Hin ]; auto.
Qed.

Lemma multi_failure_propagates (self : multi_cached.t) (f : pyfunc E)
    (args : list value) (kwargs : dict string value) (s : S) (e : E)
    (o : outcome value) (w : S * E) (tr : list event)
    (a : list value) (k : dict string value) (x : exn) :
  multi_cached.decorator self f args kwargs (s, e) = (o, w, tr) ->
  In (EvCall a k) tr ->
  fst (f_call f a k e) = Raise x ->
  o = Raise x /\ List.filter is_write tr = [].
Proof.
  intros Hrun Hin Hraise.
  destruct (multi_cached.get_cache_keys self f args kwargs) as [keys | x0] eqn:Hkeys.
  - destruct (multi_read_total keys s e) as (values & s1 & read & Hread & Hnocall & Hnowrite).
    rewrite (multi_decorator_run self f args kwargs keys values s s1 e read
               Hkeys Hread) in Hrun.
    simpl in Hrun. apply In_calls_of in Hin.
    destruct (match values with [] => false | _ => true end
              && negb (existsb is_None values)).
    + injection Hrun as <- <- <-.
      norm_calls Hin Hnocall. contradiction.
    + destruct (f_call f args _ e) as [[result | x'] e1] eqn:Hcall.
      * destruct (multi_cached.update result _) as [merged | x''] eqn:Hupd.
        -- rewrite multi_set_in_cache_run in Hrun.
           destruct (b_multi_set merged _ s1) as [[[] | err'] s2];
             injection Hrun as <- <- <-;
             norm_calls Hin Hnocall; split_in Hin;
             injection Hin as <- <-; rewrite Hcall in Hraise; discriminate.
        -- injection Hrun as <- <- <-.
           norm_calls Hin Hnocall; split_in Hin.
           injection Hin as <- <-. rewrite Hcall in Hraise. discriminate.
      * injection Hrun as <- <- <-.
        norm_calls Hin Hnocall; split_in Hin.
        injection Hin as <- <-. rewrite Hcall in Hraise. simpl in Hraise.
        injection Hraise as ->. split; [ reflexivity | ].
        simpl. rewrite !List.filter_app, Hnowrite. reflexivity.
  - unfold multi_cached.decorator, async_with, bind, lift_outcome in Hrun.
    rewrite Hkeys in Hrun. injection Hrun as <- <- <-. split_in Hin.
Qed.

(** For [cached] and [multi_cached], and whatever the backend answers: when
    the wrapped function is called and raises, the caller gets that very
    exception and the call performs no write. *)
Lemma wrapped_failure_propagates (c : cached.t) (mc : multi_cached.t)
    (f : pyfunc E) (args : list value) (kwargs : dict string value)
    (s : S) (e : E) (a : list value) (k : dict string value) (x : exn) :
  fst (f_call f a k e) = Raise x ->
  (forall o w tr,
     cached.decorator c f args kwargs (s, e) = (o, w, tr) ->
     In (EvCall a k) tr -> o = Raise x /\ List.filter is_write tr = []) /\
  (forall o w tr,
     multi_cached.decorator mc f args kwargs (s, e) = (o, w, tr) ->
     In (EvCall a k) tr -> o = Raise x /\ List.filter is_write tr = []).
Proof.
  intros Hraise. split; intros o w tr Hrun Hin.
  - eapply cached_failure_propagates; eassumption.
  - eapply multi_failure_propagates; eassumption.
Qed.

End Failures.

Section StampedeFailures.
Context {S E : Type} {B : Backend S} {L : Lock S}.

(** With a lock whose exit answers a false value, the exception of the
    wrapped function reaches the caller of the stampede decorator too. *)
Lemma stampede_failure_propagates (self : cached_stampede.t) (f : pyfunc E)
    (args : list value) (kwargs : dict string value) (s s1 s2 s3 s4 : S)
    (e e1 : E) (r r2 : bres value) (x : exn) :
  let key := cached.get_cache_key (cached_stampede.base self) f args kwargs in
  let lease := cached_stampede.lease self in
  b_get key s = (r, s1) ->
  misses r ->
  l_enter key lease s1 = (BVal tt, s2) ->
  b_get key s2 = (r2, s3) ->
  misses r2 ->
  f_call f args kwargs e = (Raise x, e1) ->
  l_exit key lease (Some x) s3 = (BVal false, s4) ->
  let run := cached_stampede.decorator self f args kwargs (s, e) in
  fst (fst run) = Raise x /\ sets_of (snd run) = [].
Proof.
  intros key lease Hget Hmiss Henter Hget2 Hmiss2 Hcall Hexit run. unfold run.
  rewrite (stampede_miss_run self f args kwargs s s1 s2 s3 e r r2
             Hget Hmiss Henter Hget2 Hmiss2).
  fold key lease. rewrite Hcall. simpl. rewrite Hexit.
  destruct r, r2; split; reflexivity.
Qed.

(** C7, at the stampede decorator: [return result] stands after the
    [async with] statement. When the wrapped function raises under a lock
    whose exit answers a true value, the exception is swallowed, [result] is
    unbound, and the caller gets [UnboundLocalError] in place of the
    exception of the function. The function was called once and nothing was
    written. *)
Theorem stampede_failure_swallowed (self : cached_stampede.t) (f : pyfunc E)
    (args : list value) (kwargs : dict string value) (s s1 s2 s3 s4 : S)
    (e e1 : E) (r r2 : bres value) (x : exn) :
  let key := cached.get_cache_key (cached_stampede.base self) f args kwargs in
  let lease := cached_stampede.lease self in
  b_get key s = (r, s1) ->
  misses r ->
  l_enter key lease s1 = (BVal tt, s2) ->
  b_get key s2 = (r2, s3) ->
  misses r2 ->
  f_call f args kwargs e = (Raise x, e1) ->
  l_exit key lease (Some x) s3 = (BVal true, s4) ->
  let run := cached_stampede.decorator self f args kwargs (s, e) in
  fst (fst run) = Raise (UnboundLocalError "result") /\
  calls_of (snd run) = [(args, kwargs)] /\
  sets_of (snd run) = [].
Proof.
  intros key lease Hget Hmiss Henter Hget2 Hmiss2 Hcall Hexit run. unfold run.
  rewrite (stampede_miss_run self f args kwargs s s1 s2 s3 e r r2
             Hget Hmiss Henter Hget2 Hmiss2).
  fold key lease. rewrite Hcall. simpl. rewrite Hexit.
  destruct r, r2; repeat split.
Qed.

End StampedeFailures.

Lemma stampede_failure_swallowed_witness :
  fst (fst (cached_stampede.decorator (B := memory.backend) (L := locks.counting)
              samples.stampede samples.boom [] [] ([], 0%nat))) =
    Raise (UnboundLocalError "result") /\
  fst (f_call samples.boom [] [] 0%nat) = Raise (UserException "ValueError").
Proof.
  split.
  - exact (proj1 (stampede_failure_swallowed (B := memory.backend)
                    (L := locks.counting) samples.stampede samples.boom [] []
                    [] [] [] [] [] 0%nat 0%nat (BVal VNone) (BVal VNone)
                    (UserException "ValueError")
                    eq_refl eq_refl eq_refl eq_refl eq_refl eq_refl eq_refl)).
  - reflexivity.
Defined.

(** ** A backend that fails *)

Section BackendDown.
Context {S E : Type} `{Backend S}.

(** With no key builder and the keys given by keyword as a list, asking the
    wrapped function for all the keys is calling it with the caller's own
    keyword arguments. *)
Lemma dict_set_same (kwargs : dict string value) (attr : string) (v : value) :
  dict_get kwargs attr = Some v -> dict_set kwargs attr v = kwargs.
Proof.
  induction kwargs as [ | [k' v'] kwargs IH ]; simpl; [ discriminate | ].
  destruct (py_eqb k' attr) eqn:Heq.
  - intros [= ->]. reflexivity.
  - intros Hget. rewrite IH by exact Hget. reflexivity.
Qed.

Lemma map_outcome_Ret (keys : list value) :
  map_outcome (fun key : value => Ret key) keys = Ret keys.
Proof.
  induction keys as [ | k keys IH ]; simpl; [ reflexivity | ].
  rewrite IH. reflexivity.
Qed.

Lemma get_cache_keys_by_keyword (self : multi_cached.t) (f : pyfunc E)
    (args : list value) (kwargs : dict string value) (keys : list value) :
  multi_cached.key_builder self = None ->
  List.NoDup (dict_keys kwargs) ->
  dict_get kwargs (multi_cached.keys_from_attr self) = Some (VList keys) ->
  multi_cached.get_cache_keys self f args kwargs = Ret keys /\
  dict_set kwargs (multi_cached.keys_from_attr self) (VList keys) = kwargs.
Proof.
  intros Hkb Hnd Hget. split; [ | apply dict_set_same, Hget ].
  unfold multi_cached.get_cache_keys, _get_args_dict, multi_cached._key_builder.
  rewrite dict_get_update by exact Hnd. rewrite Hget, Hkb. simpl.
  apply map_outcome_Ret.
Qed.

(** On a backend that is down, the multi-key decorator calls the wrapped
    function once for all the keys and ends as that call ends. *)
Lemma multi_backend_down_run (mc : multi_cached.t) (f : pyfunc E)
    (args : list value) (kwargs : dict string value) (keys : list value)
    (s : S) (e : E) :
  always_fails H ->
  multi_cached.get_cache_keys mc f args kwargs = Ret keys ->
  let kwargs' :=
    dict_set kwargs (multi_cached.keys_from_attr mc) (VList keys) in
  let o := fst (fst (multi_cached.decorator mc f args kwargs (s, e))) in
  calls_of (snd (multi_cached.decorator mc f args kwargs (s, e))) =
    [(args, kwargs')] /\
  (forall computed, fst (f_call f args kwargs' e) = Ret (VDict computed) ->
                    o = Ret (VDict computed)) /\
  (forall x, fst (f_call f args kwargs' e) = Raise x -> o = Raise x).
Proof.
  intros (Hget & Hset & Hmget & Hmset) Hkeys kwargs' o.
  assert (Hread : exists s1 read,
             multi_cached.get_from_cache keys (s, e) =
               (Ret (repeat VNone (length keys)), (s1, e), read) /\
             calls_of read = []).
  { destruct keys as [ | k0 keys ].
    - exists s, []. split; reflexivity.
    - destruct (Hmget (k0 :: keys) s) as (err & s1 & Hg).
      eexists _, _. split.
      + apply (multi_read_failed (k0 :: keys) err s s1 e); [ discriminate | exact Hg ].
      + reflexivity. }
  destruct Hread as (s1 & read & Hread & Hnocall).
  unfold o.
  rewrite (multi_decorator_run mc f args kwargs keys _ s s1 e read Hkeys Hread).
  rewrite missing_of_all_None, hits_of_all_None.
  assert (Hnot : match repeat VNone (length keys) with [] => false | _ => true end
                 && negb (existsb is_None (repeat VNone (length keys))) = false).
  { destruct keys; reflexivity. }
  simpl. rewrite Hnot. fold kwargs'.
  destruct (f_call f args kwargs' e) as [[result | x] e1]; simpl.
  - destruct result as [ | z | str0 | items | items | entries ]; simpl;
      try (repeat split; [ rewrite !calls_of_app, Hnocall; reflexivity
                         | intros computed [= ] | intros x [= ] ]).
    unfold dict_of_pairs. simpl. rewrite multi_set_in_cache_run.
    destruct (Hmset entries (multi_cached.ttl mc) s1) as (err' & s2 & ->).
    simpl. repeat split.
    + rewrite !calls_of_app, Hnocall. reflexivity.
    + intros computed [= ->]. reflexivity.
    + intros x [= ].
  - repeat split.
    + rewrite !calls_of_app, Hnocall. reflexivity.
    + intros computed [= ].
    + intros x' [= ->]. reflexivity.
Qed.

End BackendDown.

Lemma broken_always_fails : always_fails broken.backend.
Proof.
  repeat split; intros; eexists _, _; reflexivity.
Defined.

(** C6, as stated, fails: with a key builder and the backend down, the
    decorated call does not return what the wrapped function returns for
    the caller's arguments. [prices(keys=['a'], market='ES')] is
    [{'a': 'ES'}]; decorated with a key builder that prefixes the market, the
    call asks the function for the transformed key and returns
    [{'ES_a': 'ES'}]. *)
Lemma backend_down_key_builder_counterexample :
  let kwargs := [("keys", VList [VStr "a"]); ("market", VStr "ES")] in
  always_fails broken.backend /\
  fst (f_call samples.prices [] kwargs 0%nat) =
    Ret (VDict [(VStr "a", VStr "ES")]) /\
  fst (fst (multi_cached.decorator (H := broken.backend) samples.by_market
              samples.prices [] kwargs (tt, 0%nat))) =
    Ret (VDict [(VStr "ES_a", VStr "ES")]) /\
  fst (fst (multi_cached.decorator (H := broken.backend) samples.by_market
              samples.prices [] kwargs (tt, 0%nat))) <>
    fst (f_call samples.prices [] kwargs 0%nat).
Proof.
  split; [ exact broken_always_fails | ].
  split; [ reflexivity | ]. split; [ reflexivity | ]. vm_compute. discriminate.
Qed.

Section BackendDownStampede.
Context {S E : Type} {B : Backend S} {L : Lock S}.

(** A failure to take the lock is not contained: it reaches the caller. *)
Lemma stampede_lock_failure_reaches_caller (st : cached_stampede.t)
    (f : pyfunc E) (args : list value) (kwargs : dict string value)
    (s : S) (e : E) :
  always_fails B ->
  (forall key lease s0, exists err s1, l_enter key lease s0 = (BFail err, s1)) ->
  exists err,
    fst (fst (cached_stampede.decorator st f args kwargs (s, e))) =
    Raise (BackendError err) /\
    calls_of (snd (cached_stampede.decorator st f args kwargs (s, e))) = [].
Proof.
  intros (Hget & _) Henter.
  set (key := cached.get_cache_key (cached_stampede.base st) f args kwargs).
  destruct (Hget key s) as (err & s1 & Hg).
  destruct (Henter key (cached_stampede.lease st) s1) as (err' & s2 & He).
  exists err'.
  rewrite (stampede_enter_failure_run st f args kwargs s s1 s2 e (BFail err) err'
             Hg I He).
  split; reflexivity.
Qed.

(** C6, amended: on a backend whose reads and writes all raise, no failure
    of the backend reaches the caller of [cached] and of [multi_cached]. The
    single-value call ends as the caller's call of the wrapped function
    ends. The multi-key call, once its keys are derived, calls the function
    once with the keys attribute set to all the keys used against the cache,
    and ends as that call ends when it returns a mapping or raises; that
    call is the caller's own when there is no key builder and the keys come
    by keyword as a list. [cached_stampede] returns what the function
    returns when its lock is taken and released without failure. *)
Theorem backend_failures_do_not_propagate (c : cached.t) (st : cached_stampede.t)
    (mc : multi_cached.t) (f : pyfunc E) (args : list value)
    (kwargs : dict string value) (keys : list value) (s : S) (e : E) :
  always_fails B ->
  fst (fst (cached.decorator c f args kwargs (s, e))) =
    fst (f_call f args kwargs e) /\
  (multi_cached.get_cache_keys mc f args kwargs = Ret keys ->
   let kwargs' :=
     dict_set kwargs (multi_cached.keys_from_attr mc) (VList keys) in
   let o := fst (fst (multi_cached.decorator mc f args kwargs (s, e))) in
   calls_of (snd (multi_cached.decorator mc f args kwargs (s, e))) =
     [(args, kwargs')] /\
   (forall computed, fst (f_call f args kwargs' e) = Ret (VDict computed) ->
                     o = Ret (VDict computed)) /\
   (forall x, fst (f_call f args kwargs' e) = Raise x -> o = Raise x)) /\
  (multi_cached.key_builder mc = None ->
   List.NoDup (dict_keys kwargs) ->
   dict_get kwargs (multi_cached.keys_from_attr mc) = Some (VList keys) ->
   let o := fst (fst (multi_cached.decorator mc f args kwargs (s, e))) in
   calls_of (snd (multi_cached.decorator mc f args kwargs (s, e))) =
     [(args, kwargs)] /\
   (forall computed, fst (f_call f args kwargs e) = Ret (VDict computed) ->
                     o = Ret (VDict computed)) /\
   (forall x, fst (f_call f args kwargs e) = Raise x -> o = Raise x)) /\
  ((forall key lease s0, exists s1, l_enter key lease s0 = (BVal tt, s1)) ->
   (forall key lease raised s0,
      exists swallow s1, l_exit key lease raised s0 = (BVal swallow, s1)) ->
   forall v, fst (f_call f args kwargs e) = Ret v ->
             fst (fst (cached_stampede.decorator st f args kwargs (s, e))) = Ret v).
Proof.
  intros Hdown. pose proof Hdown as (Hget & Hset & Hmget & Hmset).
  split; [ | split; [ | split ] ].
  - destruct (Hget (cached.get_cache_key c f args kwargs) s) as (err & s1 & Hg).
    rewrite (cached_miss_run c f args kwargs s s1 e (BFail err) Hg I).
    destruct (f_call f args kwargs e) as [[result | x] e1]; [ | reflexivity ].
    rewrite set_in_cache_run.
    destruct (Hset (cached.get_cache_key c f args kwargs) result (cached.ttl c) s1)
      as (err' & s2 & ->).
    reflexivity.
  - intros Hkeys. apply (multi_backend_down_run mc f args kwargs keys s e Hdown Hkeys).
  - intros Hkb Hnd Hattr.
    destruct (get_cache_keys_by_keyword mc f args kwargs keys Hkb Hnd Hattr)
      as [Hkeys Hsame].
    pose proof (multi_backend_down_run mc f args kwargs keys s e Hdown Hkeys) as Hrun.
    simpl in Hrun. rewrite Hsame in Hrun. exact Hrun.
  - intros Henter Hexit v Hcall.
    set (key := cached.get_cache_key (cached_stampede.base st) f args kwargs).
    set (lease := cached_stampede.lease st).
    destruct (Hget key s) as (err & s1 & Hg).
    destruct (Henter key lease s1) as (s2 & He).
    destruct (Hget key s2) as (err2 & s3 & Hg2).
    rewrite (stampede_miss_run st f args kwargs s s1 s2 s3 e (BFail err) (BFail err2)
               Hg I He Hg2 I).
    fold key lease.
    destruct (f_call f args kwargs e) as [[result | x] e1]; simpl in Hcall;
      [ injection Hcall as -> | discriminate ].
    rewrite set_in_cache_run.
    destruct (Hset key v (cached.ttl (cached_stampede.base st)) s3)
      as (err' & s4 & ->).
    simpl. destruct (Hexit key lease None s4) as (swallow & s5 & ->). reflexivity.
Qed.

End BackendDownStampede.

Lemma backend_failures_do_not_propagate_witness :
  fst (fst (cached.decorator (H := broken.backend) cached.default samples.fn
              [VInt 1] [] (tt, 0%nat))) = Ret (VInt 1) /\
  fst (fst (multi_cached.decorator (H := broken.backend) samples.by_keys
              samples.stub_dict [] [("keys", VList [VStr "a"])] (tt, 7%nat))) =
    Ret (VDict [(VStr "a", VInt 7)]) /\
  fst (fst (cached_stampede.decorator (B := broken.backend) (L := locks.counting)
              samples.stampede samples.fn [VInt 1] [] (tt, 0%nat))) = Ret (VInt 1).
Proof.
  destruct (backend_failures_do_not_propagate (B := broken.backend)
              (L := locks.counting)
              cached.default samples.stampede samples.by_keys samples.fn
              [VInt 1] [] [] tt 0%nat broken_always_fails) as (Hc & _ & _ & Hs).
  destruct (backend_failures_do_not_propagate (B := broken.backend)
              (L := locks.counting)
              cached.default samples.stampede samples.by_keys samples.stub_dict
              [] [("keys", VList [VStr "a"])] [VStr "a"] tt 7%nat
              broken_always_fails) as (_ & _ & Hm & _).
  split; [ exact Hc | split ].
  - refine (proj1 (proj2 (Hm eq_refl _ eq_refl)) [(VStr "a", VInt 7)] eq_refl).
    repeat constructor; simpl; intuition congruence.
  - refine (Hs _ _ (VInt 1) eq_refl).
    + intros key lease s0. exists s0. reflexivity.
    + intros key lease raised s0. exists true, s0. reflexivity.
Defined.

(** ** A result that is [None] *)




(** By contrast a result that is not [None] is served from the cache by the
    next call, without a call of the wrapped function. *)
Lemma value_result_served {E : Type} (self : cached.t) (f : pyfunc E)
    (args : list value) (kwargs : dict string value)
    (s : dict value value) (e : E) (v : value) :
  let key := cached.get_cache_key self f args kwargs in
  dict_get s key = Some v ->
  is_None v = false ->
  cached.decorator (H := memory.backend) self f args kwargs (s, e) =
  (Ret v, (s, e), [EvConnEnter; EvGet key; EvClose; EvConnExit]).
Proof.
  intros key Hget Hv.
  apply (cached_hit_run (H := memory.backend) self f args kwargs s s e v);
    [ | exact Hv ].
  simpl. unfold memory.get. fold key. rewrite Hget. reflexivity.
Qed.

(** * Further properties of the module *)

(** ** Argument bindings *)

Lemma dict_get_of_pairs {K V : Type} `{PyEqLaw K} (pairs : list (K * V)) (k : K) :
  List.NoDup (map fst pairs) ->
  dict_get (dict_of_pairs pairs) k = dict_get pairs k.
Proof.
  intros Hnd. unfold dict_of_pairs.
  rewrite dict_get_update by exact Hnd. simpl.
  destruct (dict_get pairs k); reflexivity.
Qed.

Lemma map_fst_combine_firstn {A B : Type} (names : list A) (args : list B) :
  map fst (combine names args) = firstn (length args) names.
Proof.
  revert args. induction names as [ | x names IH ]; intros [ | y args ]; simpl;
    try reflexivity.
  f_equal. apply IH.
Qed.

Lemma In_firstn {A : Type} (n : nat) (l : list A) (x : A) :
  In x (firstn n l) -> In x l.
Proof.
  revert n. induction l as [ | y l IH ]; intros [ | n ]; simpl; try tauto.
  intros [ -> | Hin ]; [ left; reflexivity | right; eapply IH, Hin ].
Qed.

Lemma NoDup_firstn {A : Type} (n : nat) (l : list A) :
  List.NoDup l -> List.NoDup (firstn n l).
Proof.
  revert n. induction l as [ | x l IH ]; intros [ | n ] Hnd; simpl;
    try constructor.
  - inversion Hnd as [ | ? ? Hnotin Hnd' ]; subst.
    intros Hin. apply Hnotin. eapply In_firstn, Hin.
  - inversion Hnd; subst. apply IH. assumption.
Qed.

Lemma defaults_of_NoDup {E : Type} (f : pyfunc E) :
  List.NoDup (map fst (f_parameters f)) -> List.NoDup (map fst (defaults_of f)).
Proof.
  unfold defaults_of. induction (f_parameters f) as [ | [name [d | ]] params IH ];
    simpl; intros Hnd; inversion Hnd as [ | ? ? Hnotin Hnd' ]; subst.
  - constructor.
  - constructor; [ | apply IH, Hnd' ].
    intros Hin. apply Hnotin. clear - Hin.
    induction params as [ | [name' [d' | ]] params IH ]; simpl in *; tauto.
  - apply IH, Hnd'.
Qed.

Lemma dict_get_combine_nth (names : list string) (args : list value)
    (i : nat) (name : string) (v : value) :
  List.NoDup names ->
  nth_error names i = Some name ->
  nth_error args i = Some v ->
  dict_get (combine names args) name = Some v.
Proof.
  revert args i. induction names as [ | n0 names IH ]; intros args i Hnd Hname Harg.
  - destruct i; discriminate.
  - destruct args as [ | a0 args ]; [ destruct i; discriminate | ].
    inversion Hnd as [ | ? ? Hnotin Hnd' ]; subst. simpl.
    destruct i as [ | i ]; simpl in Hname, Harg.
    + injection Hname as ->. injection Harg as ->.
      rewrite py_eqb_refl. reflexivity.
    + rewrite py_eqb_neq.
      * eapply IH; eassumption.
      * intros ->. apply Hnotin. eapply nth_error_In, Hname.
Qed.

(** A parameter bound by the positional argument number [i], and by no
    keyword argument, reads as that argument. *)
Lemma args_dict_positional {E : Type} (f : pyfunc E) (args : list value)
    (kwargs : dict string value) (name : string) (i : nat) (v : value) :
  List.NoDup (dict_keys kwargs) ->
  List.NoDup (args_names f) ->
  List.NoDup (map fst (f_parameters f)) ->
  dict_get kwargs name = None ->
  nth_error (args_names f) i = Some name ->
  nth_error args i = Some v ->
  dict_get (_get_args_dict f args kwargs) name = Some v.
Proof.
  intros Hkw Hnames Hparams Hnokw Hname Harg.
  change (_get_args_dict f args kwargs) with
    (dict_update
       (dict_update (dict_of_pairs (defaults_of f))
                    (dict_of_pairs (combine (args_names f) args)))
       kwargs).
  rewrite dict_get_update by exact Hkw. rewrite Hnokw.
  rewrite dict_get_update by (apply dict_update_NoDup; constructor).
  rewrite dict_get_of_pairs.
  - rewrite (dict_get_combine_nth _ _ i name v Hnames Hname Harg). reflexivity.
  - rewrite map_fst_combine_firstn. apply NoDup_firstn, Hnames.
Qed.

(** X1: the bindings that [_get_args_dict] resolves read a keyword argument
    first, then the positional argument bound to the name, then the default
    of the signature. *)
Theorem args_dict_precedence {E : Type} (f : pyfunc E) (args : list value)
    (kwargs : dict string value) (name : string) :
  List.NoDup (dict_keys kwargs) ->
  List.NoDup (args_names f) ->
  List.NoDup (map fst (f_parameters f)) ->
  dict_get (_get_args_dict f args kwargs) name =
  match dict_get kwargs name with
  | Some v => Some v
  | None =>
      match dict_get (combine (args_names f) args) name with
      | Some v => Some v
      | None => dict_get (defaults_of f) name
      end
  end.
Proof.
  intros Hkw Hnames Hparams.
  change (_get_args_dict f args kwargs) with
    (dict_update
       (dict_update (dict_of_pairs (defaults_of f))
                    (dict_of_pairs (combine (args_names f) args)))
       kwargs).
  rewrite dict_get_update by exact Hkw.
  destruct (dict_get kwargs name); [ reflexivity | ].
  rewrite dict_get_update by (apply dict_update_NoDup; constructor).
  rewrite dict_get_of_pairs.
  - destruct (dict_get (combine (args_names f) args) name); [ reflexivity | ].
    apply dict_get_of_pairs, defaults_of_NoDup, Hparams.
  - rewrite map_fst_combine_firstn. apply NoDup_firstn, Hnames.
Qed.

Lemma args_dict_precedence_witness :
  dict_get (_get_args_dict samples.stub [] [("value", VInt 3)]) "value" = Some (VInt 3) /\
  dict_get (_get_args_dict samples.fn [VInt 1] []) "n" = Some (VInt 1) /\
  dict_get (_get_args_dict samples.stub [] []) "seconds" = Some (VInt 0).
Proof.
  split; [ | split ].
  - apply (args_dict_precedence samples.stub [] [("value", VInt 3)] "value");
      repeat constructor; simpl; intuition congruence.
  - apply (args_dict_precedence samples.fn [VInt 1] [] "n");
      repeat constructor; simpl; intuition congruence.
  - apply (args_dict_precedence samples.stub [] [] "seconds");
      repeat constructor; simpl; intuition congruence.
Defined.

(** X2: with [key_from_attr] naming a parameter that the call binds
    positionally (and no explicit key, no keyword argument of that name), the
    cache key is the value of that positional argument. *)
Theorem get_cache_key_positional_attr {E : Type} (self : cached.t)
    (f : pyfunc E) (args : list value) (kwargs : dict string value)
    (attr : string) (i : nat) (v : value) :
  truthy (cached.key self) = false ->
  cached.key_from_attr self = Some attr ->
  List.NoDup (dict_keys kwargs) ->
  List.NoDup (args_names f) ->
  List.NoDup (map fst (f_parameters f)) ->
  dict_get kwargs attr = None ->
  nth_error (args_names f) i = Some attr ->
  nth_error args i = Some v ->
  cached.get_cache_key self f args kwargs = v.
Proof.
  intros Hkey Hattr Hkw Hnames Hparams Hnokw Hname Harg.
  unfold cached.get_cache_key. rewrite Hkey, Hattr.
  rewrite (args_dict_positional f args kwargs attr i v
             Hkw Hnames Hparams Hnokw Hname Harg).
  reflexivity.
Qed.

Lemma get_cache_key_positional_attr_witness :
  cached.get_cache_key
    {| cached.ttl := VNone; cached.key := VNone;
       cached.key_from_attr := Some "n"; cached.noself := false |}
    samples.fn [VStr "user:7"] [] = VStr "user:7".
Proof.
  apply (get_cache_key_positional_attr
           {| cached.ttl := VNone; cached.key := VNone;
              cached.key_from_attr := Some "n"; cached.noself := false |}
           samples.fn [VStr "user:7"] [] "n" 0 (VStr "user:7"));
    try reflexivity; repeat constructor; simpl; intuition congruence.
Defined.

(** ** The single-value decorator, path by path *)

Section SingleValueExtras.
Context {S E : Type} `{Backend S}.

(** X3: a lookup never raises. It asks the backend once, gives the value
    read, or [None] when the backend failed, and schedules the closing of
    the client exactly when what it gives is not [None]. *)
Theorem cached_lookup_contained (key : value) (s : S) (e : E) :
  exists tr,
    cached.get_from_cache key (s, e) =
      (Ret (match fst (b_get key s) with BVal v => v | BFail _ => VNone end),
       (snd (b_get key s), e), tr) /\
    List.filter is_backend_op tr = [EvGet key] /\
    (In EvClose tr <->
     match fst (b_get key s) with BVal v => is_None v = false | BFail _ => False end).
Proof.
  rewrite get_from_cache_run.
  destruct (b_get key s) as [[v | err] s1]; simpl.
  - eexists. split; [ reflexivity | ]. unfold is_not_None.
    destruct (is_None v); simpl; split; try reflexivity; split;
      intuition discriminate.
  - eexists. split; [ reflexivity | ]. simpl. split; [ reflexivity | ].
    intuition discriminate.
Qed.

(** X4: a write never raises. It hands the key, the value and the
    configured TTL to the backend once, whether the backend accepts them or
    fails. *)
Theorem cached_write_contained (self : cached.t) (key v : value) (s : S) (e : E) :
  exists tr,
    cached.set_in_cache self key v (s, e) =
      (Ret tt, (snd (b_set key v (cached.ttl self) s), e), tr) /\
    List.filter is_backend_op tr = [EvSet key v (cached.ttl self)].
Proof.
  rewrite set_in_cache_run.
  destruct (b_set key v (cached.ttl self) s) as [[[] | err] s1]; simpl;
    eexists; split; reflexivity.
Qed.

(** X5: on a hit the decorated call returns the cached value: the wrapped
    function is not called, its environment is untouched and nothing is
    written. All that the call does is: open the scoped connection, read the
    key once, schedule the close of the cache, release the connection. *)
Theorem cached_hit_skips_computation (self : cached.t) (f : pyfunc E)
    (args : list value) (kwargs : dict string value) (s s1 : S) (e : E)
    (v : value) :
  b_get (cached.get_cache_key self f args kwargs) s = (BVal v, s1) ->
  is_None v = false ->
  let run := cached.decorator self f args kwargs (s, e) in
  fst run = (Ret v, (s1, e)) /\
  calls_of (snd run) = [] /\
  sets_of (snd run) = [] /\
  snd run =
    [EvConnEnter; EvGet (cached.get_cache_key self f args kwargs); EvClose;
     EvConnExit].
Proof.
  intros Hget Hhit run. unfold run.
  rewrite (cached_hit_run self f args kwargs s s1 e v Hget Hhit).
  repeat split.
Qed.

(** X6: on a miss (the backend answered [None] or failed) the wrapped
    function is called exactly once, with the arguments of the caller; the
    decorated call ends as that call ends, whatever the write does; and the
    value returned is handed to [set] once, under the key and the TTL. *)
Theorem cached_miss_computes_once (self : cached.t) (f : pyfunc E)
    (args : list value) (kwargs : dict string value) (s s1 : S) (e : E)
    (r : bres value) :
  b_get (cached.get_cache_key self f args kwargs) s = (r, s1) ->
  misses r ->
  let run := cached.decorator self f args kwargs (s, e) in
  calls_of (snd run) = [(args, kwargs)] /\
  fst (fst run) = fst (f_call f args kwargs e) /\
  sets_of (snd run) =
    match fst (f_call f args kwargs e) with
    | Ret result =>
        [(cached.get_cache_key self f args kwargs, result, cached.ttl self)]
    | Raise _ => []
    end.
Proof.
  intros Hget Hmiss run. unfold run.
  rewrite (cached_miss_run self f args kwargs s s1 e r Hget Hmiss).
  destruct (f_call f args kwargs e) as [[result | x] e1]; simpl.
  - rewrite set_in_cache_run.
    destruct (b_set _ result (cached.ttl self) s1) as [[[] | err] s2];
      destruct r; repeat split.
  - destruct r; repeat split.
Qed.

End SingleValueExtras.

Lemma cached_hit_skips_computation_witness :
  fst (cached.decorator (H := memory.backend) cached.default samples.fn
         [VInt 1] [] ([(VStr "tests.ut.test_decoratorsfn(1,)[]", VInt 5)], 0%nat)) =
  (Ret (VInt 5), ([(VStr "tests.ut.test_decoratorsfn(1,)[]", VInt 5)], 0%nat)).
Proof.
  exact (proj1 (cached_hit_skips_computation (H := memory.backend)
                  cached.default samples.fn [VInt 1] []
                  [(VStr "tests.ut.test_decoratorsfn(1,)[]", VInt 5)]
                  [(VStr "tests.ut.test_decoratorsfn(1,)[]", VInt 5)] 0%nat
                  (VInt 5) eq_refl eq_refl)).
Defined.

Lemma cached_miss_computes_once_witness :
  calls_of (snd (cached.decorator (H := broken.backend) cached.default samples.fn
                   [VInt 1] [] (tt, 0%nat))) = [([VInt 1], [])].
Proof.
  exact (proj1 (cached_miss_computes_once (H := broken.backend)
                  cached.default samples.fn [VInt 1] [] tt tt 0%nat
                  (BFail "ConnectionError") eq_refl I)).
Defined.

(** X7: read-through on the in-memory backend. From a store without the key
    and a wrapped function that returns a value other than [None], the first
    decorated call computes and stores it, and the second returns it from the
    cache without calling the function again. *)
Theorem cached_memoizes {E : Type} (self : cached.t) (f : pyfunc E)
    (args : list value) (kwargs : dict string value)
    (s : dict value value) (e e1 : E) (v : value) :
  let key := cached.get_cache_key self f args kwargs in
  dict_get s key = None ->
  f_call f args kwargs e = (Ret v, e1) ->
  is_None v = false ->
  run_calls (cached.decorator (H := memory.backend) self f args kwargs) 2 (s, e) =
  ([(Ret v, [EvConnEnter; EvGet key; EvCall args kwargs;
             EvSet key v (cached.ttl self); EvConnExit]);
    (Ret v, [EvConnEnter; EvGet key; EvClose; EvConnExit])],
   (dict_set s key v, e1)).
Proof.
  intros key Habsent Hcall Hv. simpl.
  assert (Hget : @b_get _ memory.backend key s = (BVal VNone, s)).
  { simpl. unfold memory.get. rewrite Habsent. reflexivity. }
  rewrite (cached_miss_run (H := memory.backend) self f args kwargs s s e _ Hget eq_refl).
  rewrite Hcall. simpl. fold key.
  assert (Hget2 : @b_get _ memory.backend key (dict_set s key v) =
                  (BVal v, dict_set s key v)).
  { simpl. unfold memory.get. rewrite dict_get_set_eq. reflexivity. }
  rewrite (cached_hit_run (H := memory.backend) self f args kwargs _ _ e1 v Hget2 Hv).
  reflexivity.
Qed.

Lemma cached_memoizes_witness :
  run_calls (cached.decorator (H := memory.backend) cached.default samples.stub
               [] [("value", VStr "x")]) 2 ([], 0%nat) =
  ([(Ret (VStr "x"),
     [EvConnEnter; EvGet (VStr "stub()[('value', 'x')]");
      EvCall [] [("value", VStr "x")];
      EvSet (VStr "stub()[('value', 'x')]") (VStr "x") VNone; EvConnExit]);
    (Ret (VStr "x"),
     [EvConnEnter; EvGet (VStr "stub()[('value', 'x')]"); EvClose; EvConnExit])],
   ([(VStr "stub()[('value', 'x')]", VStr "x")], 0%nat)).
Proof.
  exact (cached_memoizes cached.default samples.stub [] [("value", VStr "x")]
           [] 0%nat 0%nat (VStr "x") eq_refl eq_refl eq_refl).
Defined.

(** ** The stampede-guarded decorator, path by path *)

Section StampedeExtras.
Context {S E : Type} {B : Backend S} {L : Lock S}.

(** The block under the lock takes no lock and opens no connection. *)
Lemma critical_section_trace_clean (self : cached_stampede.t) (f : pyfunc E)
    (args : list value) (kwargs : dict string value) (key : value)
    (s : S) (e : E) :
  let t := snd (cached_stampede.critical_section self f args kwargs key (s, e)) in
  List.filter is_lock_enter t = [] /\
  List.filter is_lock_exit t = [] /\
  List.filter is_conn t = [].
Proof.
  intros t. unfold t.
  destruct (b_get key s) as [r s1] eqn:Hget.
  assert (Hcases : misses r \/ exists v, r = BVal v /\ is_None v = false).
  { destruct r as [v | err]; simpl; [ | auto ].
    destruct (is_None v) eqn:Hv; eauto. }
  destruct Hcases as [Hmiss | (v & -> & Hhit)].
  - rewrite (critical_section_miss_run self f args kwargs key s s1 e r Hget Hmiss).
    destruct (f_call f args kwargs e) as [[result | x] e1].
    + rewrite set_in_cache_run.
      destruct (b_set key result _ s1) as [[[] | err'] s2];
        destruct r; repeat split.
    + destruct r; repeat split.
  - rewrite (critical_section_hit_run self f args kwargs key s s1 e v Hget Hhit).
    repeat split.
Qed.

Lemma async_with_lock_trace (key lease : value) (block : M S E block_end)
    (s s1 : S) (e : E) :
  l_enter key lease s = (BVal tt, s1) ->
  snd (async_with_lock key lease block (s, e)) =
  [EvLockEnter key lease] ++ snd (block (s1, e)) ++ [EvLockExit key].
Proof.
  intros Henter. unfold async_with_lock. simpl. rewrite Henter.
  destruct (block (s1, e)) as [[o w1] t1]. simpl.
  destruct (l_exit key lease _ (fst w1)) as [[swallow | err] s2];
    [ destruct o as [ended | x]; [ | destruct swallow ] | ]; reflexivity.
Qed.

(** X8: lock discipline of a call run alone. When the first lookup hits,
    the call is the lookup alone: no lock, no call of the function, no write.
    When it misses, the lock is entered exactly once, for the cache key and
    the configured lease. If entering fails, the failure reaches the caller
    and there is no call, no write and no exit. If entering succeeds, the
    lock is left exactly once, as the last action of the call, and all that
    the call does after entering, the call of the function and the write
    among it, happens before leaving. No scoped connection is opened on any
    path. *)
Theorem stampede_lock_discipline (self : cached_stampede.t) (f : pyfunc E)
    (args : list value) (kwargs : dict string value) (s s1 : S) (e : E)
    (r : bres value) :
  let key := cached.get_cache_key (cached_stampede.base self) f args kwargs in
  let lease := cached_stampede.lease self in
  let run := cached_stampede.decorator self f args kwargs (s, e) in
  b_get key s = (r, s1) ->
  List.filter is_conn (snd run) = [] /\
  (forall v, r = BVal v -> is_None v = false -> snd run = [EvGet key; EvClose]) /\
  (misses r ->
   List.filter is_lock_enter (snd run) = [EvLockEnter key lease] /\
   (forall err s2,
      l_enter key lease s1 = (BFail err, s2) ->
      fst (fst run) = Raise (BackendError err) /\
      snd run = read_trace key r ++ [EvLockEnter key lease]) /\
   (forall s2,
      l_enter key lease s1 = (BVal tt, s2) ->
      List.filter is_lock_exit (snd run) = [EvLockExit key] /\
      last (snd run) = Some (EvLockExit key) /\
      snd run =
        read_trace key r ++ [EvLockEnter key lease] ++
        snd (cached_stampede.critical_section self f args kwargs key (s2, e)) ++
        [EvLockExit key])).
Proof.
  intros key lease run Hget. unfold run.
  assert (Hclean_read : List.filter is_conn (read_trace key r) = [] /\
                        List.filter is_lock_enter (read_trace key r) = [] /\
                        List.filter is_lock_exit (read_trace key r) = []).
  { destruct r; repeat split. }
  destruct Hclean_read as (Hr1 & Hr2 & Hr3).
  assert (Hmissrun : misses r ->
            snd (cached_stampede.decorator self f args kwargs (s, e)) =
            read_trace key r ++
            snd (async_with_lock key lease
                   (cached_stampede.critical_section self f args kwargs key) (s1, e))).
  { intros Hmiss.
    rewrite (stampede_after_miss_run self f args kwargs s s1 e r Hget Hmiss).
    fold key lease.
    destruct (async_with_lock key lease _ (s1, e)) as [[o w] t]. reflexivity. }
  split; [ | split ].
  - assert (Hcases : misses r \/ exists v, r = BVal v /\ is_None v = false).
    { destruct r as [v | err]; simpl; [ | auto ].
      destruct (is_None v) eqn:Hv; eauto. }
    destruct Hcases as [Hmiss | (v & -> & Hhit)].
    + rewrite (Hmissrun Hmiss), List.filter_app, Hr1. simpl.
      destruct (l_enter key lease s1) as [[[] | err] s2] eqn:Henter.
      * rewrite (async_with_lock_trace key lease _ s1 s2 e Henter).
        simpl. rewrite List.filter_app.
        destruct (critical_section_trace_clean self f args kwargs key s2 e)
          as (_ & _ & ->).
        reflexivity.
      * unfold async_with_lock. simpl. rewrite Henter. reflexivity.
    + rewrite (stampede_first_hit_run self f args kwargs s s1 e v Hget Hhit).
      reflexivity.
  - intros v -> Hhit.
    rewrite (stampede_first_hit_run self f args kwargs s s1 e v Hget Hhit).
    reflexivity.
  - intros Hmiss. rewrite (Hmissrun Hmiss). split; [ | split ].
    + rewrite List.filter_app, Hr2. simpl.
      destruct (l_enter key lease s1) as [[[] | err] s2] eqn:Henter.
      * rewrite (async_with_lock_trace key lease _ s1 s2 e Henter).
        simpl. rewrite List.filter_app.
        destruct (critical_section_trace_clean self f args kwargs key s2 e)
          as (-> & _ & _).
        reflexivity.
      * unfold async_with_lock. simpl. rewrite Henter. reflexivity.
    + intros err s2 Henter.
      rewrite (stampede_enter_failure_run self f args kwargs s s1 s2 e r err
                 Hget Hmiss Henter).
      split; [ reflexivity | ].
      unfold async_with_lock. simpl. rewrite Henter. reflexivity.
    + intros s2 Henter.
      rewrite (async_with_lock_trace key lease _ s1 s2 e Henter).
      split; [ | split; [ | reflexivity ] ].
      * rewrite !List.filter_app, Hr3.
        destruct (critical_section_trace_clean self f args kwargs key s2 e)
          as (_ & -> & _).
        reflexivity.
      * rewrite !app_assoc. apply last_snoc.
Qed.

(** X9: the double check. When the first lookup misses and the lookup made
    under the lock finds a value, that value is returned: the wrapped
    function is not called and nothing is written, and the lock is released. *)
Theorem stampede_double_check (self : cached_stampede.t) (f : pyfunc E)
    (args : list value) (kwargs : dict string value) (s s1 s2 s3 s4 : S) (e : E)
    (r : bres value) (v : value) (swallow : bool) :
  let key := cached.get_cache_key (cached_stampede.base self) f args kwargs in
  let lease := cached_stampede.lease self in
  b_get key s = (r, s1) ->
  misses r ->
  l_enter key lease s1 = (BVal tt, s2) ->
  b_get key s2 = (BVal v, s3) ->
  is_None v = false ->
  l_exit key lease None s3 = (BVal swallow, s4) ->
  let run := cached_stampede.decorator self f args kwargs (s, e) in
  fst run = (Ret v, (s4, e)) /\
  calls_of (snd run) = [] /\
  sets_of (snd run) = [] /\
  List.filter is_backend_op (snd run) = [EvGet key; EvGet key] /\
  List.filter is_lock_exit (snd run) = [EvLockExit key].
Proof.
  intros key lease Hget Hmiss Henter Hget2 Hhit Hexit run. unfold run.
  rewrite (stampede_second_hit_run self f args kwargs s s1 s2 s3 s4 e r v swallow
             Hget Hmiss Henter Hget2 Hhit Hexit).
  fold key. destruct r; simpl; repeat split.
Qed.

(** X10: a miss run alone, under a lock that is taken and left without
    failure. Both lookups miss: the wrapped function is called once with the
    caller's arguments, a value it returns is returned and written once
    under the key and the TTL of the decorator, and the lock is left once.
    When the function raises, nothing is written, and the caller gets the
    exception of the function if the exit of the lock answers a false value,
    but [UnboundLocalError] if it answers a true value. *)
Theorem stampede_miss_computes_once (self : cached_stampede.t) (f : pyfunc E)
    (args : list value) (kwargs : dict string value) (s s1 s2 s3 : S) (e : E)
    (r r2 : bres value) (swallow : bool) :
  let key := cached.get_cache_key (cached_stampede.base self) f args kwargs in
  let lease := cached_stampede.lease self in
  b_get key s = (r, s1) ->
  misses r ->
  l_enter key lease s1 = (BVal tt, s2) ->
  b_get key s2 = (r2, s3) ->
  misses r2 ->
  (forall raised s0, exists s', l_exit key lease raised s0 = (BVal swallow, s')) ->
  let run := cached_stampede.decorator self f args kwargs (s, e) in
  calls_of (snd run) = [(args, kwargs)] /\
  fst (fst run) =
    match fst (f_call f args kwargs e) with
    | Ret result => Ret result
    | Raise x => if swallow then Raise (UnboundLocalError "result") else Raise x
    end /\
  sets_of (snd run) =
    match fst (f_call f args kwargs e) with
    | Ret result => [(key, result, cached.ttl (cached_stampede.base self))]
    | Raise _ => []
    end /\
  List.filter is_lock_exit (snd run) = [EvLockExit key].
Proof.
  intros key lease Hget Hmiss Henter Hget2 Hmiss2 Hexit run. unfold run.
  rewrite (stampede_miss_run self f args kwargs s s1 s2 s3 e r r2
             Hget Hmiss Henter Hget2 Hmiss2).
  fold key lease.
  destruct (f_call f args kwargs e) as [[result | x] e1]; simpl.
  - rewrite set_in_cache_run.
    destruct (b_set key result _ s3) as [[[] | err] s4]; simpl;
      destruct (Hexit None s4) as (s5 & ->); destruct r, r2; repeat split.
  - destruct (Hexit (Some x) s3) as (s4 & ->).
    destruct swallow, r, r2; repeat split.
Qed.

End StampedeExtras.

Lemma stampede_lock_discipline_witness :
  List.filter is_lock_enter
    (snd (cached_stampede.decorator (B := memory.backend) (L := locks.passing)
            samples.stampede samples.fn [VInt 1] [] ([], 0%nat))) =
  [EvLockEnter (VStr "tests.ut.test_decoratorsfn(1,)[]") (VInt 2)].
Proof.
  exact (proj1 (proj2 (proj2
    (stampede_lock_discipline (B := memory.backend) (L := locks.passing)
       samples.stampede samples.fn [VInt 1] [] [] [] 0%nat (BVal VNone) eq_refl))
    eq_refl)).
Defined.

Lemma stampede_double_check_witness :
  fst (cached_stampede.decorator (B := filled_meanwhile) (L := locks.counting)
         samples.stampede samples.fn [VInt 1] [] (0%nat, 0%nat)) =
  (Ret (VStr "value"), (2%nat, 0%nat)).
Proof.
  exact (proj1 (stampede_double_check (B := filled_meanwhile) (L := locks.counting)
                  samples.stampede samples.fn [VInt 1] [] 0%nat 1%nat 1%nat 2%nat
                  2%nat 0%nat (BVal VNone) (VStr "value") true
                  eq_refl eq_refl eq_refl eq_refl eq_refl eq_refl)).
Defined.

Lemma stampede_miss_computes_once_witness :
  calls_of (snd (cached_stampede.decorator (B := memory.backend)
                   (L := locks.counting) samples.stampede
                   samples.fn [VInt 1] [] ([], 0%nat))) = [([VInt 1], [])].
Proof.
  refine (proj1 (stampede_miss_computes_once (B := memory.backend)
                   (L := locks.counting) samples.stampede
                   samples.fn [VInt 1] [] [] [] [] [] 0%nat
                   (BVal VNone) (BVal VNone) true
                   eq_refl eq_refl eq_refl eq_refl eq_refl _)).
  intros raised s0. exists s0. reflexivity.
Defined.

(** ** The multi-key decorator, path by path *)

(** The first key that the key builder rejects decides the derivation. *)
Lemma map_outcome_first_failure {A B : Type} (g : A -> outcome B)
    (before after : list A) (done : list B) (k : A) (x : exn) :
  map_outcome g before = Ret done ->
  g k = Raise x ->
  map_outcome g (before ++ k :: after) = Raise x.
Proof.
  revert done. induction before as [ | a before IH ]; intros done Hdone Hk; simpl.
  - rewrite Hk. reflexivity.
  - simpl in Hdone. destruct (g a) as [b | x']; [ | discriminate ].
    destruct (map_outcome g before) as [bs | x'] eqn:Hbs; [ | discriminate ].
    rewrite (IH bs eq_refl Hk). reflexivity.
Qed.

Section MultiExtras.
Context {S E : Type} `{Backend S}.

Lemma multi_keys_failure_run (self : multi_cached.t) (f : pyfunc E)
    (args : list value) (kwargs : dict string value) (s : S) (e : E) (x : exn) :
  multi_cached.get_cache_keys self f args kwargs = Raise x ->
  multi_cached.decorator self f args kwargs (s, e) =
  (Raise x, (s, e), [EvConnEnter; EvConnExit]).
Proof.
  intros Hkeys. unfold multi_cached.decorator, async_with, bind, lift_outcome.
  rewrite Hkeys. reflexivity.
Qed.

(** X11: the batch read never raises. For no keys it answers the empty list
    without a backend call; otherwise it asks the backend once and answers
    what the backend answered, or one [None] per key when the backend
    failed. *)
Theorem multi_batch_read_contained (keys : list value) (s : S) (e : E) :
  exists values s1 tr,
    multi_cached.get_from_cache keys (s, e) = (Ret values, (s1, e), tr) /\
    (keys = [] -> values = [] /\ tr = [] /\ s1 = s) /\
    (keys <> [] ->
     List.filter is_backend_op tr = [EvMultiGet keys] /\
     s1 = snd (b_multi_get keys s) /\
     values = match fst (b_multi_get keys s) with
              | BVal answered => answered
              | BFail _ => repeat VNone (length keys)
              end).
Proof.
  rewrite multi_get_from_cache_run. destruct keys as [ | k0 keys ].
  - exists [], s, []. split; [ reflexivity | ].
    split; [ intros _; repeat split | intros Hne; contradiction ].
  - destruct (b_multi_get (k0 :: keys) s) as [[answered | err] s1]; simpl.
    + eexists _, _, _. split; [ reflexivity | ].
      split; [ discriminate | ]. intros _.
      destruct (negb (existsb is_None answered)); repeat split.
    + eexists _, _, _. split; [ reflexivity | ].
      split; [ discriminate | ]. intros _. repeat split.
Qed.

(** X12: on a full hit (a non-empty batch answer without [None]) the
    decorated call returns the mapping of the keys to the values read: the
    wrapped function is not called, its environment is untouched and
    nothing is written. All that the call does is: open the scoped
    connection, read the keys in one batch, schedule the close of the cache,
    release the connection. *)
Theorem multi_full_hit_skips_computation (self : multi_cached.t) (f : pyfunc E)
    (args : list value) (kwargs : dict string value)
    (keys values : list value) (s s1 : S) (e : E) :
  multi_cached.get_cache_keys self f args kwargs = Ret keys ->
  keys <> [] ->
  b_multi_get keys s = (BVal values, s1) ->
  values <> [] ->
  existsb is_None values = false ->
  let run := multi_cached.decorator self f args kwargs (s, e) in
  fst run = (Ret (VDict (dict_of_pairs (combine keys values))), (s1, e)) /\
  calls_of (snd run) = [] /\
  multi_sets_of (snd run) = [] /\
  snd run = [EvConnEnter; EvMultiGet keys; EvClose; EvConnExit].
Proof.
  intros Hkeys Hne Hget Hvalues Hhit run. unfold run.
  rewrite (multi_decorator_run self f args kwargs keys values s s1 e _ Hkeys
             (multi_read_full_hit keys values s s1 e Hne Hget Hhit)).
  rewrite Hhit, (hits_of_full keys values Hhit).
  destruct values as [ | v values ]; [ contradiction | ]. repeat split.
Qed.

(** X13: when the bindings of the call have no keys attribute, the decorated
    call raises [KeyError] for it; the backend is not touched and the wrapped
    function is not called. *)
Theorem multi_missing_attr_raises (self : multi_cached.t) (f : pyfunc E)
    (args : list value) (kwargs : dict string value) (s : S) (e : E) :
  dict_get (_get_args_dict f args kwargs) (multi_cached.keys_from_attr self) = None ->
  multi_cached.decorator self f args kwargs (s, e) =
  (Raise (KeyError (VStr (multi_cached.keys_from_attr self))), (s, e),
   [EvConnEnter; EvConnExit]).
Proof.
  intros Hlack. apply multi_keys_failure_run.
  unfold multi_cached.get_cache_keys. rewrite Hlack. reflexivity.
Qed.

(** X14: when the keys attribute is bound to [None] (the usual default of
    the parameter, when the caller gives no keys) or to a number, the
    decorated call raises [TypeError]; the backend is not touched and the
    wrapped function is not called. *)
Theorem multi_non_iterable_keys_raises (self : multi_cached.t) (f : pyfunc E)
    (args : list value) (kwargs : dict string value) (requested : value)
    (s : S) (e : E) :
  dict_get (_get_args_dict f args kwargs) (multi_cached.keys_from_attr self) =
    Some requested ->
  (requested = VNone \/ exists z, requested = VInt z) ->
  multi_cached.decorator self f args kwargs (s, e) =
  (Raise (TypeError "object is not iterable"), (s, e), [EvConnEnter; EvConnExit]).
Proof.
  intros Hattr Hkind. apply multi_keys_failure_run.
  unfold multi_cached.get_cache_keys. rewrite Hattr.
  destruct Hkind as [ -> | [z ->] ]; reflexivity.
Qed.

(** X15: when the key builder raises on one of the requested keys, having
    accepted the keys before it, the decorated call raises that exception;
    the backend is not touched and the wrapped function is not called. *)
Theorem multi_key_builder_failure_aborts (self : multi_cached.t) (f : pyfunc E)
    (args : list value) (kwargs : dict string value) (requested : value)
    (before after done : list value) (k : value) (x : exn) (s : S) (e : E) :
  dict_get (_get_args_dict f args kwargs) (multi_cached.keys_from_attr self) =
    Some requested ->
  iterate requested = Ret (before ++ k :: after) ->
  map_outcome
    (fun key => multi_cached._key_builder self key (_get_args_dict f args kwargs))
    before = Ret done ->
  multi_cached._key_builder self k (_get_args_dict f args kwargs) = Raise x ->
  multi_cached.decorator self f args kwargs (s, e) =
  (Raise x, (s, e), [EvConnEnter; EvConnExit]).
Proof.
  intros Hattr Hiter Hbefore Hk. apply multi_keys_failure_run.
  unfold multi_cached.get_cache_keys. rewrite Hattr, Hiter.
  apply (map_outcome_first_failure _ before after done k x Hbefore Hk).
Qed.

End MultiExtras.

Lemma multi_full_hit_skips_computation_witness :
  fst (multi_cached.decorator (H := memory.backend) samples.by_keys
         samples.stub_dict [VInt 1] [("keys", VList [VStr "a"; VStr "b"])]
         ([(VStr "a", VInt 1); (VStr "b", VInt 2)], 7%nat)) =
  (Ret (VDict [(VStr "a", VInt 1); (VStr "b", VInt 2)]),
   ([(VStr "a", VInt 1); (VStr "b", VInt 2)], 7%nat)).
Proof.
  exact (proj1 (multi_full_hit_skips_computation (H := memory.backend)
                  samples.by_keys samples.stub_dict [VInt 1]
                  [("keys", VList [VStr "a"; VStr "b"])]
                  [VStr "a"; VStr "b"] [VInt 1; VInt 2]
                  [(VStr "a", VInt 1); (VStr "b", VInt 2)]
                  [(VStr "a", VInt 1); (VStr "b", VInt 2)] 7%nat
                  eq_refl ltac:(discriminate) eq_refl ltac:(discriminate) eq_refl)).
Defined.

Lemma multi_missing_attr_raises_witness :
  multi_cached.decorator (H := memory.backend) samples.by_keys samples.fn
    [VInt 1] [] ([], 0%nat) =
  (Raise (KeyError (VStr "keys")), ([], 0%nat), [EvConnEnter; EvConnExit]).
Proof.
  exact (multi_missing_attr_raises (H := memory.backend) samples.by_keys
           samples.fn [VInt 1] [] [] 0%nat eq_refl).
Defined.

Lemma multi_non_iterable_keys_raises_witness :
  multi_cached.decorator (H := memory.backend) samples.by_keys samples.stub_dict
    [] [] ([], 0%nat) =
  (Raise (TypeError "object is not iterable"), ([], 0%nat),
   [EvConnEnter; EvConnExit]).
Proof.
  exact (multi_non_iterable_keys_raises (H := memory.backend) samples.by_keys
           samples.stub_dict [] [] VNone [] 0%nat eq_refl (or_introl eq_refl)).
Defined.

Lemma multi_key_builder_failure_aborts_witness :
  multi_cached.decorator (H := memory.backend) samples.by_market samples.stub_dict
    [] [("keys", VList [VStr "a"; VInt 2; VStr "c"]); ("market", VStr "ES")]
    ([], 0%nat) =
  (Raise (TypeError "can only concatenate str"), ([], 0%nat),
   [EvConnEnter; EvConnExit]).
Proof.
  exact (multi_key_builder_failure_aborts (H := memory.backend) samples.by_market
           samples.stub_dict []
           [("keys", VList [VStr "a"; VInt 2; VStr "c"]); ("market", VStr "ES")]
           (VList [VStr "a"; VInt 2; VStr "c"])
           [VStr "a"] [VStr "c"] [VStr "ES_a"] (VInt 2)
           (TypeError "can only concatenate str") [] 0%nat
           eq_refl eq_refl eq_refl eq_refl).
Defined.

(** ** The partition of a batch read *)

Lemma dict_set_absent {K V : Type} `{PyEqLaw K} (d : dict K V) (k : K) (v : V) :
  dict_get d k = None -> dict_set d k v = d ++ [(k, v)].
Proof.
  induction d as [ | [k' v'] d IH ]; simpl; [ reflexivity | ].
  destruct (py_eqb k' k); [ discriminate | ].
  intros Hget. rewrite IH by exact Hget. reflexivity.
Qed.

Lemma dict_update_fresh {K V : Type} `{PyEqLaw K} (d pairs : dict K V) :
  List.NoDup (map fst pairs) ->
  (forall k, In k (map fst pairs) -> dict_get d k = None) ->
  dict_update d pairs = d ++ pairs.
Proof.
  unfold dict_update. revert d.
  induction pairs as [ | [k v] pairs IH ]; intros d Hnd Hfresh; simpl.
  - rewrite app_nil_r. reflexivity.
  - inversion Hnd as [ | ? ? Hnotin Hnd' ]; subst.
    rewrite dict_set_absent by (apply Hfresh; left; reflexivity).
    rewrite IH; [ rewrite <- app_assoc; reflexivity | exact Hnd' | ].
    intros k0 Hin. apply dict_get_None_keys. unfold dict_keys.
    rewrite map_app, in_app_iff. simpl. intros [Hd | [ <- | [] ]].
    + apply dict_get_None_keys in Hd; [ exact Hd | ].
      apply Hfresh. right. exact Hin.
    + contradiction.
Qed.

Lemma dict_of_pairs_id {K V : Type} `{PyEqLaw K} (pairs : dict K V) :
  List.NoDup (map fst pairs) -> dict_of_pairs pairs = pairs.
Proof.
  intros Hnd. unfold dict_of_pairs.
  rewrite dict_update_fresh; [ reflexivity | exact Hnd | reflexivity ].
Qed.

Lemma NoDup_map_fst_filter {A B : Type} (p : A * B -> bool) (l : list (A * B)) :
  List.NoDup (map fst l) -> List.NoDup (map fst (List.filter p l)).
Proof.
  induction l as [ | x l IH ]; simpl; intros Hnd; [ constructor | ].
  inversion Hnd as [ | ? ? Hnotin Hnd' ]; subst.
  destruct (p x); simpl; [ | apply IH, Hnd' ].
  constructor; [ | apply IH, Hnd' ].
  intros Hin. apply Hnotin. clear - Hin.
  induction l as [ | y l IH ]; simpl in *; [ contradiction | ].
  destruct (p y); simpl in *; tauto.
Qed.

Lemma NoDup_map_fst_combine (keys values : list value) :
  List.NoDup keys -> List.NoDup (map fst (combine keys values)).
Proof.
  intros Hnd. rewrite map_fst_combine_firstn. apply NoDup_firstn, Hnd.
Qed.

(** X16: for distinct keys, the loop over [zip(keys, values)] splits the
    keys that were read in two: [missing_keys] holds, in order, the keys whose
    value is [None], [partial] the other keys with their values; no key is in
    both, and together they are the keys read. *)
Theorem partition_loop_partitions (keys values : list value) :
  List.NoDup keys ->
  let r := fold_left multi_cached.partition_step (combine keys values) ([], []) in
  fst r = missing_of keys values /\
  snd r = hits_of keys values /\
  (forall k, In k (fst r) -> dict_get (snd r) k = None) /\
  Permutation (fst r ++ dict_keys (snd r)) (firstn (length values) keys).
Proof.
  intros Hnd r. unfold r. rewrite partition_loop. simpl.
  assert (Hid : dict_of_pairs (hits_of keys values) = hits_of keys values).
  { apply dict_of_pairs_id, NoDup_map_fst_filter, NoDup_map_fst_combine, Hnd. }
  rewrite Hid. split; [ reflexivity | ]. split; [ reflexivity | ].
  pose proof (NoDup_map_fst_combine keys values Hnd) as Hnd'.
  rewrite <- map_fst_combine_firstn.
  unfold missing_of, hits_of, is_not_None, dict_keys.
  induction (combine keys values) as [ | [k v] pairs IH ]; simpl.
  - split; [ tauto | constructor ].
  - inversion Hnd' as [ | ? ? Hnotin Hnd'' ]; subst.
    destruct (IH Hnd'') as [IHdisj IHperm].
    destruct (is_None v) eqn:Hv; simpl.
    + split.
      * intros k0 [ <- | Hin ]; [ | apply IHdisj, Hin ].
        apply dict_get_None_keys. unfold dict_keys. intros Hin. apply Hnotin.
        clear - Hin. induction pairs as [ | [k' v'] pairs IH ]; simpl in *;
          [ contradiction | ].
        destruct (is_None v'); simpl in *; tauto.
      * constructor. exact IHperm.
    + split.
      * intros k0 Hin. rewrite py_eqb_neq; [ apply IHdisj, Hin | ].
        intros <-. apply Hnotin. clear - Hin.
        induction pairs as [ | [k' v'] pairs IH ]; simpl in *;
          [ contradiction | ].
        destruct (is_None v'); simpl in *; tauto.
      * rewrite <- Permutation_middle. constructor. exact IHperm.
Qed.

Lemma partition_loop_partitions_witness :
  fold_left multi_cached.partition_step
    (combine [VStr "a"; VStr "b"; VStr "c"] [VInt 1; VNone; VInt 3]) ([], []) =
  ([VStr "b"], [(VStr "a", VInt 1); (VStr "c", VInt 3)]).
Proof.
  destruct (partition_loop_partitions [VStr "a"; VStr "b"; VStr "c"]
              [VInt 1; VNone; VInt 3]) as (Hm & Hp & _).
  - repeat constructor; simpl; intuition congruence.
  - apply injective_projections; [ exact Hm | exact Hp ].
Defined.

(** ** The multi-key decorator after a miss *)

Lemma dict_get_of_repeated_keys (g : value -> value) (keys : list value)
    (d : dict value value) (k : value) :
  dict_get (dict_update d (combine keys (map g keys))) k =
  if existsb (value_eqb k) keys then Some (g k) else dict_get d k.
Proof.
  unfold dict_update. revert d.
  induction keys as [ | k0 keys IH ]; intros d; simpl; [ reflexivity | ].
  rewrite IH. destruct (existsb (value_eqb k) keys) eqn:Hin.
  - rewrite orb_true_r. reflexivity.
  - rewrite orb_false_r. destruct (value_eqb k k0) eqn:Heq.
    + apply value_eqb_eq in Heq. subst k0. apply dict_get_set_eq.
    + apply dict_get_set_ne. intros ->.
      rewrite (proj2 (value_eqb_eq k k) eq_refl) in Heq. discriminate.
Qed.

Lemma existsb_value_eqb_In (k : value) (keys : list value) :
  In k keys -> existsb (value_eqb k) keys = true.
Proof.
  intros Hin. apply existsb_exists. exists k. split; [ exact Hin | ].
  apply value_eqb_eq. reflexivity.
Qed.

Section MultiMissExtras.
Context {S E : Type} `{Backend S}.

(** X17: a wrapped function that returns something else than a mapping
    ([None], a list, a number): on a miss the decorated call raises
    [AttributeError], from [result.update], after the one call of the
    function and before any write. *)
Theorem multi_non_mapping_result (self : multi_cached.t) (f : pyfunc E)
    (args : list value) (kwargs : dict string value)
    (keys values : list value) (result : value) (s s1 : S) (e e1 : E) :
  multi_cached.get_cache_keys self f args kwargs = Ret keys ->
  keys <> [] ->
  b_multi_get keys s = (BVal values, s1) ->
  existsb is_None values = true ->
  f_call f args
    (dict_set kwargs (multi_cached.keys_from_attr self)
              (VList (missing_of keys values))) e = (Ret result, e1) ->
  (forall entries, result <> VDict entries) ->
  let run := multi_cached.decorator self f args kwargs (s, e) in
  fst run = (Raise (AttributeError "object has no attribute 'update'"), (s1, e1)) /\
  multi_sets_of (snd run) = [] /\
  calls_of (snd run) =
    [(args, dict_set kwargs (multi_cached.keys_from_attr self)
                     (VList (missing_of keys values)))].
Proof.
  intros Hkeys Hne Hget Hmiss Hcall Hnotdict run. unfold run.
  rewrite (multi_decorator_run self f args kwargs keys values s s1 e _ Hkeys
             (multi_read_some_missing keys values s s1 e Hne Hget Hmiss)).
  simpl. rewrite Hmiss, andb_false_r, Hcall.
  destruct result as [ | z | str0 | items | items | entries ];
    try (exfalso; eapply Hnotdict; reflexivity); simpl; repeat split.
Qed.

(** X18: when the batch read fails, every requested key counts as missing:
    the wrapped function is called once for all of them, and the mapping it
    returns is returned and written whole, under the configured TTL. *)
Theorem multi_read_failure_repopulates (self : multi_cached.t) (f : pyfunc E)
    (args : list value) (kwargs : dict string value) (keys : list value)
    (computed : dict value value) (err : string) (s s1 : S) (e e1 : E) :
  multi_cached.get_cache_keys self f args kwargs = Ret keys ->
  keys <> [] ->
  b_multi_get keys s = (BFail err, s1) ->
  f_call f args
    (dict_set kwargs (multi_cached.keys_from_attr self) (VList keys)) e =
    (Ret (VDict computed), e1) ->
  let run := multi_cached.decorator self f args kwargs (s, e) in
  fst (fst run) = Ret (VDict computed) /\
  calls_of (snd run) =
    [(args, dict_set kwargs (multi_cached.keys_from_attr self) (VList keys))] /\
  multi_sets_of (snd run) = [(computed, multi_cached.ttl self)].
Proof.
  intros Hkeys Hne Hget Hcall run. unfold run.
  rewrite (multi_decorator_run self f args kwargs keys _ s s1 e _ Hkeys
             (multi_read_failed keys err s s1 e Hne Hget)).
  rewrite missing_of_all_None, hits_of_all_None.
  assert (Hnot : match repeat VNone (length keys) with [] => false | _ => true end
                 && negb (existsb is_None (repeat VNone (length keys))) = false).
  { destruct keys; reflexivity. }
  simpl. rewrite Hnot, Hcall. simpl. unfold dict_of_pairs. simpl.
  rewrite multi_set_in_cache_run.
  destruct (b_multi_set computed (multi_cached.ttl self) s1) as [[[] | err'] s2];
    repeat split.
Qed.

(** X19: keys given positionally. When the keys attribute names the
    parameter that the call binds with its positional argument number [i]
    (and no keyword argument has that name), the cache keys are derived from
    that argument, and on a miss the wrapped function is called once, with
    the positional arguments of the caller unchanged, the requested keys
    still among them, and with the keyword arguments of the caller followed
    by the keys attribute bound to the missing keys. *)
Theorem multi_keys_added_as_keyword (self : multi_cached.t) (f : pyfunc E)
    (args : list value) (kwargs : dict string value)
    (original keys values : list value) (i : nat) (requested : value)
    (s s1 : S) (e : E) :
  List.NoDup (dict_keys kwargs) ->
  List.NoDup (args_names f) ->
  List.NoDup (map fst (f_parameters f)) ->
  dict_get kwargs (multi_cached.keys_from_attr self) = None ->
  nth_error (args_names f) i = Some (multi_cached.keys_from_attr self) ->
  nth_error args i = Some requested ->
  iterate requested = Ret original ->
  map_outcome
    (fun key => multi_cached._key_builder self key (_get_args_dict f args kwargs))
    original = Ret keys ->
  keys <> [] ->
  b_multi_get keys s = (BVal values, s1) ->
  existsb is_None values = true ->
  multi_cached.get_cache_keys self f args kwargs = Ret keys /\
  calls_of (snd (multi_cached.decorator self f args kwargs (s, e))) =
    [(args,
      kwargs ++ [(multi_cached.keys_from_attr self, VList (missing_of keys values))])].
Proof.
  intros Hkw Hnames Hparams Hnokw Hname Harg Hiter Hmap Hne Hget Hmiss.
  assert (Hkeys : multi_cached.get_cache_keys self f args kwargs = Ret keys).
  { unfold multi_cached.get_cache_keys.
    rewrite (args_dict_positional f args kwargs _ i requested
               Hkw Hnames Hparams Hnokw Hname Harg), Hiter.
    exact Hmap. }
  split; [ exact Hkeys | ].
  rewrite (multi_decorator_run self f args kwargs keys values s s1 e _ Hkeys
             (multi_read_some_missing keys values s s1 e Hne Hget Hmiss)).
  simpl. rewrite Hmiss, andb_false_r.
  rewrite (dict_set_absent kwargs _ _ Hnokw).
  destruct (f_call f args _ e) as [[result | x] e1]; simpl; [ | reflexivity ].
  destruct (multi_cached.update result _) as [merged | x]; simpl; [ | reflexivity ].
  rewrite multi_set_in_cache_run.
  destruct (b_multi_set merged (multi_cached.ttl self) s1) as [[[] | err'] s2];
    reflexivity.
Qed.

End MultiMissExtras.

(** X20: read-through on the in-memory backend. After a miss whose merged
    mapping gives every requested key a value other than [None], the next
    decorated call for the same keys is a full hit: it reads each key as the
    first call returned it, without calling the wrapped function and without
    writing. *)
Theorem multi_memoizes {E : Type} (self : multi_cached.t) (f : pyfunc E)
    (args : list value) (kwargs : dict string value) (keys : list value)
    (computed : dict value value) (s : dict value value) (e e1 : E) :
  let values :=
    map (fun key => match dict_get s key with Some v => v | None => VNone end) keys in
  let merged := dict_update computed (dict_of_pairs (hits_of keys values)) in
  multi_cached.get_cache_keys self f args kwargs = Ret keys ->
  keys <> [] ->
  existsb is_None values = true ->
  f_call f args
    (dict_set kwargs (multi_cached.keys_from_attr self)
              (VList (missing_of keys values))) e = (Ret (VDict computed), e1) ->
  List.NoDup (dict_keys computed) ->
  (forall k, In k keys -> exists v, dict_get merged k = Some v /\ is_None v = false) ->
  exists tr1 again tr2 w,
    run_calls (multi_cached.decorator (H := memory.backend) self f args kwargs) 2
      (s, e) =
      ([(Ret (VDict merged), tr1); (Ret (VDict again), tr2)], w) /\
    snd w = e1 /\
    calls_of tr2 = [] /\
    multi_sets_of tr2 = [] /\
    forall k, In k keys -> dict_get again k = dict_get merged k.
Proof.
  intros values merged Hkeys Hne Hmiss Hcall Hnd Hcovered. simpl.
  assert (Hget : @b_multi_get _ memory.backend keys s = (BVal values, s))
    by reflexivity.
  rewrite (multi_decorator_run (H := memory.backend) self f args kwargs keys values
             s s e _ Hkeys
             (multi_read_some_missing (H := memory.backend) keys values s s e
                Hne Hget Hmiss)).
  simpl. rewrite Hmiss, andb_false_r, Hcall. simpl. fold merged.
  set (s' := dict_update s merged).
  set (values' :=
         map (fun key => match dict_get s' key with Some v => v | None => VNone end)
             keys).
  assert (Hmerged_nd : List.NoDup (dict_keys merged)).
  { apply dict_update_NoDup, Hnd. }
  assert (Hread : forall k, In k keys ->
            match dict_get s' k with Some v => v | None => VNone end =
            match dict_get merged k with Some v => v | None => VNone end).
  { intros k Hin. unfold s'. rewrite dict_get_update by exact Hmerged_nd.
    destruct (Hcovered k Hin) as (v & -> & _). reflexivity. }
  assert (Hhit : existsb is_None values' = false).
  { apply not_true_is_false. intros Hex.
    apply existsb_exists in Hex as (v & Hin & Hv).
    unfold values' in Hin. apply in_map_iff in Hin as (k & <- & Hk).
    rewrite (Hread k Hk) in Hv.
    destruct (Hcovered k Hk) as (v & Hget' & Hnn). rewrite Hget' in Hv.
    congruence. }
  assert (Hget2 : @b_multi_get _ memory.backend keys s' = (BVal values', s'))
    by reflexivity.
  rewrite (multi_decorator_run (H := memory.backend) self f args kwargs keys values'
             s' s' e1 _ Hkeys
             (multi_read_full_hit (H := memory.backend) keys values' s' s' e1
                Hne Hget2 Hhit)).
  rewrite Hhit, (hits_of_full keys values' Hhit).
  assert (Hnonempty : match values' with [] => false | _ => true end = true).
  { unfold values'. destruct keys; [ contradiction | reflexivity ]. }
  rewrite Hnonempty. simpl.
  eexists _, _, _, _. split; [ reflexivity | ].
  repeat split.
  intros k Hin. unfold dict_of_pairs, values'.
  rewrite dict_get_of_repeated_keys, (existsb_value_eqb_In k keys Hin).
  rewrite (Hread k Hin).
  destruct (Hcovered k Hin) as (v & -> & _). reflexivity.
Qed.

Lemma multi_non_mapping_result_witness :
  fst (multi_cached.decorator (H := memory.backend) samples.by_keys samples.forgetful
         [] [("keys", VList [VStr "a"])] ([], 0%nat)) =
  (Raise (AttributeError "object has no attribute 'update'"), ([], 1%nat)).
Proof.
  refine (proj1 (multi_non_mapping_result (H := memory.backend) samples.by_keys
                   samples.forgetful [] [("keys", VList [VStr "a"])]
                   [VStr "a"] [VNone] VNone [] [] 0%nat 1%nat
                   eq_refl ltac:(discriminate) eq_refl eq_refl eq_refl _)).
  intros entries. discriminate.
Defined.

Lemma multi_read_failure_repopulates_witness :
  multi_sets_of
    (snd (multi_cached.decorator (H := broken.backend) samples.by_keys
            samples.stub_dict [] [("keys", VList [VStr "a"])] (tt, 7%nat))) =
  [([(VStr "a", VInt 7)], VInt 0)].
Proof.
  exact (proj2 (proj2
    (multi_read_failure_repopulates (H := broken.backend) samples.by_keys
       samples.stub_dict [] [("keys", VList [VStr "a"])] [VStr "a"]
       [(VStr "a", VInt 7)] "ConnectionError" tt tt 7%nat 8%nat
       eq_refl ltac:(discriminate) eq_refl eq_refl))).
Defined.

Lemma multi_keys_added_as_keyword_witness :
  calls_of
    (snd (multi_cached.decorator (H := memory.backend) samples.by_keys
            samples.lookup [VList [VStr "a"; VStr "b"]] []
            ([(VStr "a", VInt 1)], 7%nat))) =
  [([VList [VStr "a"; VStr "b"]], [("keys", VList [VStr "b"])])].
Proof.
  refine (proj2 (multi_keys_added_as_keyword (H := memory.backend) samples.by_keys
                   samples.lookup [VList [VStr "a"; VStr "b"]] []
                   [VStr "a"; VStr "b"] [VStr "a"; VStr "b"] [VInt 1; VNone] 0
                   (VList [VStr "a"; VStr "b"])
                   [(VStr "a", VInt 1)] [(VStr "a", VInt 1)] 7%nat
                   _ _ _ eq_refl eq_refl eq_refl eq_refl eq_refl
                   ltac:(discriminate) eq_refl eq_refl));
    repeat constructor; simpl; intuition congruence.
Defined.

Lemma multi_memoizes_witness :
  exists tr1 again tr2 w,
    run_calls
      (multi_cached.decorator (H := memory.backend) samples.by_keys
         samples.stub_dict [] [("keys", VList [VStr "a"; VStr "b"])]) 2
      ([(VStr "a", VInt 1)], 7%nat) =
      ([(Ret (VDict [(VStr "b", VInt 7); (VStr "a", VInt 1)]), tr1);
        (Ret (VDict again), tr2)], w) /\
    snd w = 8%nat /\
    calls_of tr2 = [] /\
    multi_sets_of tr2 = [] /\
    forall k, In k [VStr "a"; VStr "b"] ->
              dict_get again k = dict_get [(VStr "b", VInt 7); (VStr "a", VInt 1)] k.
Proof.
  refine (multi_memoizes samples.by_keys samples.stub_dict []
            [("keys", VList [VStr "a"; VStr "b"])] [VStr "a"; VStr "b"]
            [(VStr "b", VInt 7)] [(VStr "a", VInt 1)] 7%nat 8%nat
            eq_refl ltac:(discriminate) eq_refl eq_refl _ _).
  - repeat constructor; simpl; intuition congruence.
  - intros k [ <- | [ <- | [] ] ]; eexists; split; reflexivity.
Defined.

(** X21: with no key builder and the keys given by keyword as a list, a
    call for keys that are all absent from the cache calls the wrapped
    function once, with exactly the arguments of the caller. *)
Theorem multi_total_miss_calls_as_caller {S E : Type} `{Backend S}
    (self : multi_cached.t) (f : pyfunc E) (args : list value)
    (kwargs : dict string value) (keys : list value) (s s1 : S) (e : E) :
  multi_cached.key_builder self = None ->
  List.NoDup (dict_keys kwargs) ->
  dict_get kwargs (multi_cached.keys_from_attr self) = Some (VList keys) ->
  keys <> [] ->
  b_multi_get keys s = (BVal (repeat VNone (length keys)), s1) ->
  calls_of (snd (multi_cached.decorator self f args kwargs (s, e))) =
  [(args, kwargs)].
Proof.
  intros Hkb Hnd Hattr Hne Hget.
  destruct (get_cache_keys_by_keyword self f args kwargs keys Hkb Hnd Hattr)
    as [Hkeys Hsame].
  assert (Hmiss : existsb is_None (repeat VNone (length keys)) = true).
  { destruct keys; [ contradiction | reflexivity ]. }
  rewrite (multi_decorator_run self f args kwargs keys _ s s1 e _ Hkeys
             (multi_read_some_missing keys _ s s1 e Hne Hget Hmiss)).
  simpl. rewrite Hmiss, andb_false_r, missing_of_all_None, Hsame.
  destruct (f_call f args kwargs e) as [[result | x] e1]; simpl; [ | reflexivity ].
  destruct (multi_cached.update result _) as [merged | x]; simpl; [ | reflexivity ].
  rewrite multi_set_in_cache_run.
  destruct (b_multi_set merged (multi_cached.ttl self) s1) as [[[] | err'] s2];
    reflexivity.
Qed.

Lemma multi_total_miss_calls_as_caller_witness :
  calls_of
    (snd (multi_cached.decorator (H := memory.backend) samples.by_keys
            samples.stub_dict [VInt 1]
            [("keys", VList [VStr "a"; VStr "b"]); ("value", VStr "value")]
            ([], 7%nat))) =
  [([VInt 1], [("keys", VList [VStr "a"; VStr "b"]); ("value", VStr "value")])].
Proof.
  apply (multi_total_miss_calls_as_caller (H := memory.backend) samples.by_keys
           samples.stub_dict [VInt 1]
           [("keys", VList [VStr "a"; VStr "b"]); ("value", VStr "value")]
           [VStr "a"; VStr "b"] [] [] 7%nat).
  - reflexivity.
  - repeat constructor; simpl; intuition congruence.
  - reflexivity.
  - discriminate.
  - reflexivity.
Defined.

